(** * DataFaker: schema and generation engine

    A shallow embedding of [data_engine/datatypes.py],
    [data_engine/column_schema.py] and [data_engine/table_schema.py].

    Python objects that the code mutates or shares (the column lists and the
    [TableSchema] instances) live in an explicit store; the ambient random
    source of the [random] module is an explicit stream that every
    generation rule threads through; exceptions are an error result. *)

From Stdlib Require Import ZArith QArith Qround Ascii String.
From stdpp Require Import base option list gmap strings.

Local Open Scope Z_scope.

(** ** Exceptions and results *)

(** The exceptions the engine raises or lets through.  The last two are not
    Python exceptions.  [IllTyped] marks an argument outside the annotated
    type of a parameter (a string where a number is expected, say), which
    this development does not follow any further; [StoreFault] marks a
    reference that does not lead to an object of the expected class, which
    no run of the program produces. *)
Inductive exn : Type :=
  | ValueError
  | TypeError
  | KeyError
  | IndexError
  | IllTyped
  | StoreFault.

Inductive result (A : Type) : Type :=
  | Ok (a : A)
  | Raise (e : exn).
Arguments Ok {A} a.
Arguments Raise {A} e.

Global Instance result_bind : MBind result := λ A B k r,
  match r with
  | Ok a => k a
  | Raise e => Raise e
  end.

Global Instance result_ret : MRet result := λ A a, Ok a.

(** ** Numbers

    A Python number is an [int] or a finite [float]; floats are read as the
    rationals they denote, which is exact for the comparisons and for the
    thresholds 0.0 and 1.0 the engine uses.  NaN is kept apart, as a cell
    value of its own (see [cell]). *)
Inductive num : Type :=
  | Int (z : Z)
  | Float (q : Q).

Definition num_Q (n : num) : Q :=
  match n with
  | Int z => inject_Z z
  | Float q => q
  end.

Definition Qltb (x y : Q) : bool := negb (Qle_bool y x).

(** [a < b], [a <= b], [a > b], [a >= b] on numbers. *)
Definition num_lt (a b : num) : bool := Qltb (num_Q a) (num_Q b).
Definition num_le (a b : num) : bool := Qle_bool (num_Q a) (num_Q b).
Definition num_gt (a b : num) : bool := num_lt b a.
Definition num_ge (a b : num) : bool := num_le b a.

(** [a + b] and [a - b]: an int only when both operands are. *)
Definition num_add (a b : num) : num :=
  match a, b with
  | Int x, Int y => Int (x + y)
  | _, _ => Float (num_Q a + num_Q b)
  end.

Definition num_sub (a b : num) : num :=
  match a, b with
  | Int x, Int y => Int (x - y)
  | _, _ => Float (num_Q a - num_Q b)
  end.

(** The builtins [max(a, b)] and [min(a, b)] of two arguments: the first
    argument is kept unless the second is strictly larger (smaller). *)
Definition py_max (a b : num) : num := if num_gt b a then b else a.
Definition py_min (a b : num) : num := if num_lt b a then b else a.

(** [int(x)]: truncation towards zero. *)
Definition py_int (n : num) : Z :=
  match n with
  | Int z => z
  | Float q => Z.quot (Qnum q) (Zpos (Qden q))
  end.

(** [round(x, 2)]: to the nearest multiple of 1/100, ties to even. *)
Definition round_half_even (q : Q) : Z :=
  let f := Qfloor q in
  let r := (q - inject_Z f)%Q in
  match Qcompare r (1 # 2) with
  | Lt => f
  | Gt => f + 1
  | Eq => if Z.even f then f else f + 1
  end.

Definition py_round2 (q : Q) : Q :=
  (inject_Z (round_half_even (q * 100)) / 100)%Q.

(** ** The [random] module

    The process-wide generator is a stream of raw words, consumed one per
    elementary draw.  [random.random()] yields the multiples of [2^-53] in
    [[0,1)], as CPython does; [randint] and [choice] reduce one word
    modulo the size of their range, so that every admissible outcome, and
    no other, is reachable. *)
Definition rng : Type := nat → Z.

Definition next_word (g : rng) : Z * rng := (g 0%nat, fun n => g (S n)).

Definition two53 : Z := 2 ^ 53.

Definition random_random (g : rng) : Q * rng :=
  let '(w, g') := next_word g in
  (Qmake (w mod two53) (Z.to_pos two53), g').

(** [random.randint(a, b)], [ValueError] on an empty range. *)
Definition random_randint (a b : Z) (g : rng) : result (Z * rng) :=
  if Z.ltb b a then Raise ValueError
  else let '(w, g') := next_word g in Ok (a + w mod (b - a + 1), g').

(** [random.choice(seq)], [IndexError] on an empty sequence. *)
Definition random_choice {A} (seq : list A) (g : rng) : result (A * rng) :=
  let '(w, g') := next_word g in
  match seq !! Z.to_nat (w mod Z.of_nat (length seq)) with
  | Some x => Ok (x, g')
  | None => Raise IndexError
  end.

(** [random.uniform(a, b)] is [a + (b - a) * random()]. *)
Definition random_uniform (a b : Q) (g : rng) : Q * rng :=
  let '(u, g') := random_random g in
  ((a + (b - a) * u)%Q, g').

(** [random.choices(population, k=k)]: [k] independent draws, each
    [population[floor(random() * n)]]. *)
Fixpoint random_choices {A} (population : list A) (k : nat) (g : rng)
  : result (list A * rng) :=
  match k with
  | O => Ok ([], g)
  | S k' =>
      let '(u, g1) := random_random g in
      let i := Qfloor (u * inject_Z (Z.of_nat (length population))) in
      match population !! Z.to_nat i with
      | Some x =>
          '(rest, g2) ← random_choices population k' g1;
          Ok (x :: rest, g2)
      | None => Raise IndexError
      end
  end.

(** ** Values

    [cell] is a Python value that reaches the engine from outside: a cell
    of the configuration frame or a keyword argument.  [value] is what a
    generation rule returns; [VNone] is the null marker. *)
Inductive cell : Type :=
  | CNone
  | CNaN
  | CNum (n : num)
  | CStr (s : string)
  | CList (l : list string).

Inductive value : Type :=
  | VNone
  | VInt (z : Z)
  | VFloat (q : Q)
  | VStr (s : string)
  | VBool (b : bool).

(** A zero-argument rule that uses the ambient random source. *)
Definition rule : Type := rng → result (value * rng).

(** A parameter that has a default: [None] when the caller does not supply
    it, [Some c] when the caller passes [c] (which may be [CNone]). *)
Definition param : Type := option cell.

(** A numeric argument, [None] for Python's [None]. *)
Definition as_num (c : cell) : result (option num) :=
  match c with
  | CNone => Ok None
  | CNum n => Ok (Some n)
  | _ => Raise IllTyped
  end.

(** ** datatypes.py *)

Module Datatype.

(** Instances of the five registered subclasses of [Datatype], with the
    attributes their constructors store. *)
Inductive t : Type :=
  | StringType (length : num)
  | IntegerType (min_value max_value : Z)
  | FloatType (min_value max_value : num)
  | CategoryType (categories : list string)
  | BooleanType.

(** The classes themselves, as the registry holds them. *)
Inductive class : Type :=
  | StringTypeC
  | IntegerTypeC
  | FloatTypeC
  | CategoryTypeC
  | BooleanTypeC.

(** The decorator [Datatype.register], applied to its names: every name
    is bound to the subclass. *)
Definition register (names : list string) (subclass : class)
    (registry : gmap string class) : gmap string class :=
  foldl (fun r name => <[name := subclass]> r) registry names.

(** [Datatype._registry] once the module is loaded. *)
Definition _registry : gmap string class :=
  register ["boolean"] BooleanTypeC
    (register ["category"] CategoryTypeC
      (register ["float"] FloatTypeC
        (register ["int"; "integer"] IntegerTypeC
          (register ["string"] StringTypeC ∅)))).

Definition get_class (name : string) : result class :=
  match _registry !! name with
  | Some c => Ok c
  | None => Raise ValueError
  end.

(** [StringType.__init__(self, length=10)]. *)
Definition StringType_init (length : param) : result t :=
  length ← as_num (default (CNum (Int 10)) length);
  let length := default (Int 10) length in
  if num_le length (Int 0) then Raise ValueError
  else Ok (StringType length).

(** [IntegerType.__init__(self, min_value=0, max_value=100)]. *)
Definition IntegerType_init (min_value max_value : param) : result t :=
  min_value ← as_num (default (CNum (Int 0)) min_value);
  max_value ← as_num (default (CNum (Int 100)) max_value);
  let '(min_value, max_value) :=
    match min_value, max_value with
    | None, None => (Int 0, Int 100)
    | Some lo, None => (lo, py_max (num_add (Int 100) lo) (Int 100))
    | None, Some hi => (py_min (num_sub hi (Int 100)) (Int 0), hi)
    | Some lo, Some hi => (lo, hi)
    end in
  if num_ge min_value max_value then Raise ValueError
  else Ok (IntegerType (py_int min_value) (py_int max_value)).

(** [FloatType.__init__(self, min_value=0.0, max_value=100.0)]: the same
    defaults, and no check of the bounds. *)
Definition FloatType_init (min_value max_value : param) : result t :=
  min_value ← as_num (default (CNum (Float 0)) min_value);
  max_value ← as_num (default (CNum (Float 100)) max_value);
  let '(min_value, max_value) :=
    match min_value, max_value with
    | None, None => (Float 0, Float 100)
    | Some lo, None => (lo, py_max (num_add (Float 100) lo) (Float 100))
    | None, Some hi => (py_min (num_sub hi (Float 100)) (Float 0), hi)
    | Some lo, Some hi => (lo, hi)
    end in
  Ok (FloatType min_value max_value).

(** [CategoryType.__init__(self, categories=["A", "B", "C"])];
    [list(set(categories))] keeps one copy of every label, in the order
    the set enumerates them. *)
Definition CategoryType_init (categories : param) : result t :=
  match default (CList ["A"; "B"; "C"]) categories with
  | CNone => Raise ValueError
  | CList l =>
      if bool_decide (length l = 0%nat) then Raise ValueError
      else Ok (CategoryType (elements (list_to_set l : gset string)))
  | _ => Raise IllTyped
  end.

Definition BooleanType_init : result t := Ok BooleanType.

(** [string.ascii_letters + string.digits]. *)
Definition alphabet : list ascii :=
  list_ascii_of_string
    "abcdefghijklmnopqrstuvwxyzABCDEFGHIJKLMNOPQRSTUVWXYZ0123456789".

(** The [generator_rule] method of each subclass. *)
Definition generator_rule (d : t) : rule := fun g =>
  match d with
  | StringType length =>
      match length with
      | Int k =>
          '(cs, g') ← random_choices alphabet (Z.to_nat k) g;
          Ok (VStr (string_of_list_ascii cs), g')
      | Float _ => Raise TypeError
      end
  | IntegerType min_value max_value =>
      '(z, g') ← random_randint min_value max_value g;
      Ok (VInt z, g')
  | FloatType min_value max_value =>
      let '(x, g') := random_uniform (num_Q min_value) (num_Q max_value) g in
      Ok (VFloat (py_round2 x), g')
  | CategoryType categories =>
      match categories with
      | [] => Ok (VNone, g)
      | _ =>
          '(c, g') ← random_choice categories g;
          Ok (VStr c, g')
      end
  | BooleanType =>
      '(b, g') ← random_choice [true; false] g;
      Ok (VBool b, g')
  end.

(** The parameter names of [cls.__init__], as
    [inspect.signature(cls.__init__).parameters] lists them. *)
Definition init_parameters (cls : class) : list string :=
  match cls with
  | StringTypeC => ["self"; "length"]
  | IntegerTypeC => ["self"; "min_value"; "max_value"]
  | FloatTypeC => ["self"; "min_value"; "max_value"]
  | CategoryTypeC => ["self"; "categories"]
  | BooleanTypeC => ["self"]
  end.

(** The call of [cls] on keyword arguments already restricted to
    [init_parameters cls]; a keyword [self] collides with the instance
    being built. *)
Definition construct (cls : class) (kwargs : gmap string cell) : result t :=
  if bool_decide (is_Some (kwargs !! "self")) then Raise TypeError
  else
    match cls with
    | StringTypeC => StringType_init (kwargs !! "length")
    | IntegerTypeC =>
        IntegerType_init (kwargs !! "min_value") (kwargs !! "max_value")
    | FloatTypeC =>
        FloatType_init (kwargs !! "min_value") (kwargs !! "max_value")
    | CategoryTypeC => CategoryType_init (kwargs !! "categories")
    | BooleanTypeC => BooleanType_init
    end.

End Datatype.

(** ** column_schema.py *)

(** [str.lower()] on the ASCII letters. *)
Definition lower_ascii (c : ascii) : ascii :=
  let n := nat_of_ascii c in
  if (65 <=? n)%nat && (n <=? 90)%nat then ascii_of_nat (n + 32) else c.

Fixpoint lower (s : string) : string :=
  match s with
  | EmptyString => EmptyString
  | String c s' => String (lower_ascii c) (lower s')
  end.

Module ColumnSchema.

Record t : Type := mk {
  name : string;
  datatype : Datatype.t;
  completeness : num;
  generator_rule : option rule
}.

(** The [datatype] argument: a plain value ([None], a tag, or something
    else) or an instance of [Datatype]. *)
Inductive datatype_arg : Type :=
  | DtValue (c : cell)
  | DtInstance (d : Datatype.t).

(** [pd.isna(completeness)] together with the [is None] test, on the
    values of the annotated type. *)
Definition normalize_completeness (completeness : cell) : result num :=
  match completeness with
  | CNone | CNaN => Ok (Float 1)
  | CNum n => Ok n
  | _ => Raise IllTyped
  end.

(** [ColumnSchema.__init__(self, name, datatype=None, completeness=1.0,
    generator_rule=None, **datatype_kwargs)]. *)
Definition init (name : string) (datatype : datatype_arg)
    (completeness : param) (generator_rule : option rule)
    (datatype_kwargs : gmap string cell) : result t :=
  datatype ←
    match datatype with
    | DtValue CNone => Datatype.StringType_init None
    | DtValue (CStr tag) =>
        datatype_class ← Datatype.get_class (lower tag);
        let valid_args := Datatype.init_parameters datatype_class in
        let filtered_kwargs :=
          filter (fun kv => kv.1 ∈ valid_args) datatype_kwargs in
        Datatype.construct datatype_class filtered_kwargs
    | DtInstance d => Ok d
    | DtValue _ => Raise TypeError
    end;
  completeness ←
    normalize_completeness (default (CNum (Float 1)) completeness);
  Ok {| name := name;
        datatype := datatype;
        completeness := completeness;
        generator_rule := generator_rule |}.

(** [ColumnSchema.generate(self)]. *)
Definition generate (self : t) : rule := fun g =>
  let '(sample, g) := random_random g in
  let provide_null_value := Qltb (num_Q (completeness self)) sample in
  if provide_null_value && num_lt (completeness self) (Float 1)
  then Ok (VNone, g)
  else
    match generator_rule self with
    | Some override => override g
    | None => Datatype.generator_rule (datatype self) g
    end.

End ColumnSchema.

(** ** table_schema.py *)

(** The store: column lists and [TableSchema] instances are objects with an
    identity, so that two references to one list see each other's
    updates.  [ColumnSchema] instances are never updated after
    construction and are kept as plain values. *)
Definition loc : Type := positive.

Inductive object : Type :=
  | ListObj (items : list ColumnSchema.t)
  | TableSchemaObj (columns : option loc).

Definition alloc (o : object) (σ : gmap loc object) : loc * gmap loc object :=
  let l := fresh (dom σ) in (l, <[l := o]> σ).

(** The configuration frame read by [from_dataframe]: column labels and
    rows of cells. *)
Record frame : Type := mk_frame {
  labels : list string;
  rows : list (list cell)
}.

(** [v if pd.notna(v) else None].  On a list, [pd.notna] answers with an
    array, whose truth value is that of its only element and an error for
    any other size (NumPy 2.2 and later, for the empty array). *)
Definition notna_or_None (v : cell) : result cell :=
  match v with
  | CNone | CNaN => Ok CNone
  | CNum _ | CStr _ => Ok v
  | CList [_] => Ok v
  | CList _ => Raise ValueError
  end.

(** The generated table: [pd.DataFrame(data, columns=col_names)]. *)
Record DataFrame : Type := mk_DataFrame {
  df_columns : list string;
  df_data : list (list value)
}.

Module TableSchema.

(** [TableSchema.__init__(self, columns=None)]: the reference is stored
    as it is, the list is not copied. *)
Definition init (columns : option loc) (σ : gmap loc object)
  : result (loc * gmap loc object) :=
  Ok (alloc (TableSchemaObj columns) σ).

(** Reading [self.columns] and the items of a list object. *)
Definition get_columns (self : loc) (σ : gmap loc object)
  : result (option loc) :=
  match σ !! self with
  | Some (TableSchemaObj columns) => Ok columns
  | _ => Raise StoreFault
  end.

Definition get_items (l : loc) (σ : gmap loc object)
  : result (list ColumnSchema.t) :=
  match σ !! l with
  | Some (ListObj items) => Ok items
  | _ => Raise StoreFault
  end.

(** [[c.generate() for c in self.columns]]. *)
Fixpoint generate_row (cols : list ColumnSchema.t) (g : rng)
  : result (list value * rng) :=
  match cols with
  | [] => Ok ([], g)
  | c :: cols' =>
      '(v, g1) ← ColumnSchema.generate c g;
      '(vs, g2) ← generate_row cols' g1;
      Ok (v :: vs, g2)
  end.

(** The loop [while count < num_rows], by the number of rounds that
    remain. *)
Fixpoint generate_rows (remaining : nat) (cols : list ColumnSchema.t)
    (g : rng) : result (list (list value) * rng) :=
  match remaining with
  | O => Ok ([], g)
  | S remaining' =>
      '(row, g1) ← generate_row cols g;
      '(data, g2) ← generate_rows remaining' cols g1;
      Ok (row :: data, g2)
  end.

(** [TableSchema.generate(self, num_rows=10)]. *)
Definition generate (self : loc) (num_rows : Z) (σ : gmap loc object)
    (g : rng) : result (DataFrame * rng) :=
  columns ← get_columns self σ;
  match columns with
  | None => Raise ValueError
  | Some l =>
      cols ← get_items l σ;
      let col_names := ColumnSchema.name <$> cols in
      '(data, g') ← generate_rows (Z.to_nat num_rows) cols g;
      Ok (mk_DataFrame col_names data, g')
  end.

(** [TableSchema.add_column(self, column)]: [append] updates the list
    object in place. *)
Definition add_column (self : loc) (column : ColumnSchema.t + string)
    (σ : gmap loc object) : result (gmap loc object) :=
  column ←
    match column with
    | inr name => ColumnSchema.init name (ColumnSchema.DtValue CNone)
                    None None ∅
    | inl c => Ok c
    end;
  columns ← get_columns self σ;
  '(l, σ) ←
    match columns with
    | None =>
        let '(l, σ) := alloc (ListObj []) σ in
        Ok (l, <[self := TableSchemaObj (Some l)]> σ)
    | Some l => Ok (l, σ)
    end;
  items ← get_items l σ;
  Ok (<[l := ListObj (items ++ [column])]> σ).

(** [TableSchema.remove_column(self, column_name)]: the attribute is
    bound to a new list. *)
Definition remove_column (self : loc) (column_name : string)
    (σ : gmap loc object) : result (gmap loc object) :=
  columns ← get_columns self σ;
  match columns with
  | Some l =>
      items ← get_items l σ;
      let '(l', σ) :=
        alloc (ListObj (filter (fun col => ColumnSchema.name col ≠ column_name)
                          items)) σ in
      Ok (<[self := TableSchemaObj (Some l')]> σ)
  | None => Ok σ
  end.

(** [TableSchema.select_columns(self, column_names)].  The first
    statement binds [cols] to a new empty list when [self.columns] is
    [None]; the second one iterates [self.columns] whatever it is. *)
Definition select_columns (self : loc) (column_names : list string)
    (σ : gmap loc object) : result (loc * gmap loc object) :=
  columns ← get_columns self σ;
  let σ :=
    match columns with
    | None => (alloc (ListObj []) σ).2
    | Some _ => σ
    end in
  match columns with
  | None => Raise TypeError
  | Some l =>
      items ← get_items l σ;
      let '(cols, σ) :=
        alloc (ListObj (filter (fun col => ColumnSchema.name col ∈ column_names)
                          items)) σ in
      init (Some cols) σ
  end.

(** The dictionary [{k: (v if pd.notna(v) else None) for k, v in
    r.items()}] of one row, built from left to right. *)
Fixpoint row_dict_from (row : gmap string cell)
    (items : list (string * cell)) : result (gmap string cell) :=
  match items with
  | [] => Ok row
  | (k, v) :: items' =>
      v' ← notna_or_None v;
      row_dict_from (<[k := v']> row) items'
  end.

Definition row_dict (items : list (string * cell))
  : result (gmap string cell) :=
  row_dict_from ∅ items.

(** [row[key]]. *)
Definition getitem (row : gmap string cell) (key : string) : result cell :=
  match row !! key with
  | Some v => Ok v
  | None => Raise KeyError
  end.

Definition as_name (c : cell) : result string :=
  match c with
  | CStr s => Ok s
  | _ => Raise IllTyped
  end.

(** The body of the loop of [from_dataframe]: the column of one row. *)
Definition column_of_row (r : list (string * cell))
  : result ColumnSchema.t :=
  row ← row_dict r;
  name ← getitem row "name";
  datatype ← getitem row "datatype";
  length ← getitem row "length";
  domain ← getitem row "domain";
  max ← getitem row "max";
  min ← getitem row "min";
  completeness ← getitem row "completeness";
  name ← as_name name;
  ColumnSchema.init name (ColumnSchema.DtValue datatype)
    (Some completeness) None
    (<["length" := length]>
      (<["domain" := domain]>
        (<["max_value" := max]>
          (<["min_value" := min]> ∅)))).

(** [TableSchema.from_dataframe(df)]. *)
Definition from_dataframe (df : frame) (σ : gmap loc object)
  : result (loc * gmap loc object) :=
  let '(columns, σ) := alloc (ListObj []) σ in
  σ ← foldl (fun acc r =>
               σ ← acc;
               col ← column_of_row (zip (labels df) r);
               items ← get_items columns σ;
               Ok (<[columns := ListObj (items ++ [col])]> σ))
            (Ok σ) (rows df);
  init (Some columns) σ.

End TableSchema.

(** ** Auxiliary notions for the statements *)

(** What a rule returned, without the state of the random source. *)
Definition returned {A} (r : result (A * rng)) : result A :=
  match r with
  | Ok (a, _) => Ok a
  | Raise e => Raise e
  end.

(** The sample that [generate] draws first, and the random source after
    it. *)
Definition first_sample (g : rng) : Q := (random_random g).1.
Definition after_sample (g : rng) : rng := (random_random g).2.

(** The test that guards the null path of [ColumnSchema.generate]. *)
Definition null_path (col : ColumnSchema.t) (g : rng) : Prop :=
  (num_Q (ColumnSchema.completeness col) < 1)%Q
  ∧ (num_Q (ColumnSchema.completeness col) < first_sample g)%Q.

(** The rule that produces the value of a column: the override when there
    is one, the rule of the datatype otherwise. *)
Definition value_rule (col : ColumnSchema.t) : rule :=
  match ColumnSchema.generator_rule col with
  | Some override => override
  | None => Datatype.generator_rule (ColumnSchema.datatype col)
  end.

(** Datatype instances that a constructor call can produce, among the
    calls whose arguments are cells: the labels of a category are
    strings here, so a list that holds another object, which
    [CategoryType.__init__] accepts as well, is outside this predicate. *)
Definition constructed (d : Datatype.t) : Prop :=
  ∃ cls kwargs, Datatype.construct cls kwargs = Ok d.

(** The Text, Integer, Decimal and Boolean variants: those whose rule
    builds its value itself instead of handing out a stored label. *)
Definition not_category (d : Datatype.t) : Prop :=
  match d with
  | Datatype.CategoryType _ => False
  | _ => True
  end.

(** A random source whose words are all [w]. *)
Definition constant_rng (w : Z) : rng := fun _ => w.

(** Concrete columns used below: an integer column that is never
    complete, a default column that is always complete, and a column whose
    override returns the null marker. *)
Definition null_override : rule := fun g => Ok (VNone, g).

Definition never_complete_column : ColumnSchema.t :=
  ColumnSchema.mk "x" (Datatype.IntegerType 0 100) (Float 0) None.

Definition complete_column : ColumnSchema.t :=
  ColumnSchema.mk "x" (Datatype.IntegerType 0 100) (Float 1) None.

Definition null_override_column : ColumnSchema.t :=
  ColumnSchema.mk "x" (Datatype.StringType (Int 10)) (Float 1)
    (Some null_override).

(** A default text column of a given name, and a store that holds a
    schema (at 2) over the list (at 1) of the columns a, b, c. *)
Definition text_column (name : string) : ColumnSchema.t :=
  ColumnSchema.mk name (Datatype.StringType (Int 10)) (Float 1) None.

Definition abc_store : gmap loc object :=
  <[2%positive := TableSchemaObj (Some 1%positive)]>
    {[1%positive := ListObj [text_column "a"; text_column "b";
                             text_column "c"]]}.

(** Configuration frames.  [age_email_frame] has the seven columns that
    [from_dataframe] reads, the cells that a row does not mention being
    not-available; its numbers are ints or, as in a frame whose numeric
    columns hold a NaN, floats.  [age_email_records] has only the columns
    that the two records mention. *)
Definition config_labels : list string :=
  ["name"; "datatype"; "length"; "domain"; "max"; "min"; "completeness"].

Definition number (as_float : bool) (z : Z) : num :=
  if as_float then Float (inject_Z z) else Int z.

Definition age_email_frame (as_float : bool) : frame :=
  mk_frame config_labels
    [ [CStr "Age"; CStr "integer"; CNaN; CNaN;
       CNum (number as_float 65); CNum (number as_float 18);
       CNum (number as_float 1)];
      [CStr "Email"; CStr "string"; CNaN; CNaN; CNaN; CNaN;
       CNum (Float (1 # 4))] ].

Definition age_email_records : frame :=
  mk_frame ["name"; "datatype"; "min"; "max"; "completeness"]
    [ [CStr "Age"; CStr "integer"; CNum (Int 18); CNum (Int 65);
       CNum (Int 1)];
      [CStr "Email"; CStr "string"; CNaN; CNaN; CNum (Float (1 # 4))] ].

Definition category_frame (name : string) (domain : list string) : frame :=
  mk_frame config_labels
    [ [CStr name; CStr "category"; CNaN; CList domain; CNaN; CNaN; CNaN] ].

(** The rows of a table over an integer column followed by one more
    column. *)
Definition integer_then_any (lo hi : Z) (row : list value) : Prop :=
  ∃ z v, row = [VInt z; v] ∧ lo ≤ z ≤ hi.

(** The schema that [from_dataframe] builds from [age_email_frame]: the
    list of the two columns (at 1) and the schema over it (at 2). *)
Definition age_column (as_float : bool) : ColumnSchema.t :=
  ColumnSchema.mk "Age" (Datatype.IntegerType 18 65) (number as_float 1) None.

Definition email_column : ColumnSchema.t :=
  ColumnSchema.mk "Email" (Datatype.StringType (Int 10)) (Float (1 # 4)) None.

Definition age_email_store (as_float : bool) : gmap loc object :=
  <[2%positive := TableSchemaObj (Some 1%positive)]>
    {[1%positive := ListObj [age_column as_float; email_column]]}.

(** The tags of the registry with their classes. *)
Definition registered : list (string * Datatype.class) :=
  [("string", Datatype.StringTypeC); ("int", Datatype.IntegerTypeC);
   ("integer", Datatype.IntegerTypeC); ("float", Datatype.FloatTypeC);
   ("category", Datatype.CategoryTypeC); ("boolean", Datatype.BooleanTypeC)].

(** The column with another completeness. *)
Definition with_completeness (col : ColumnSchema.t) (c : num)
  : ColumnSchema.t :=
  ColumnSchema.mk (ColumnSchema.name col) (ColumnSchema.datatype col) c
    (ColumnSchema.generator_rule col).

(** The columns of a schema, read through its list: [None] when the list
    is absent. *)
Definition contents (self : loc) (σ : gmap loc object)
  : result (option (list ColumnSchema.t)) :=
  columns ← TableSchema.get_columns self σ;
  match columns with
  | None => Ok None
  | Some l => items ← TableSchema.get_items l σ; Ok (Some items)
  end.

(** A column whose [generate] returns a value for every state of the
    random source. *)
Definition always_generates (col : ColumnSchema.t) : Prop :=
  ∀ g, ∃ v g', ColumnSchema.generate col g = Ok (v, g').

(** A text column whose length is a float, and a store with a schema (at
    2) over the list (at 1) that holds it. *)
Definition float_text_column : ColumnSchema.t :=
  ColumnSchema.mk "t" (Datatype.StringType (Float 5)) (Float 1) None.

Definition float_text_store : gmap loc object :=
  <[2%positive := TableSchemaObj (Some 1%positive)]>
    {[1%positive := ListObj [float_text_column]]}.

(** A not-available cell read as [None]. *)
Definition nan_to_none (c : cell) : cell :=
  match c with
  | CNaN => CNone
  | _ => c
  end.

(** One round of the loop of [from_dataframe], on the store reached so
    far. *)
Definition from_dataframe_step (labels : list string) (columns : loc)
    (acc : result (gmap loc object)) (r : list cell)
  : result (gmap loc object) :=
  σ ← acc;
  col ← TableSchema.column_of_row (zip labels r);
  items ← TableSchema.get_items columns σ;
  Ok (<[columns := ListObj (items ++ [col])]> σ).

(** The rows of a frame turn into the given columns, one by one. *)
Definition rows_give (labels : list string) (rows : list (list cell))
    (cols : list ColumnSchema.t) : Prop :=
  Forall2 (fun r col => TableSchema.column_of_row (zip labels r) = Ok col)
    rows cols.

(** * Properties *)

(** ** Numbers and the random source *)

Lemma Qltb_lt (x y : Q) : Qltb x y = true ↔ (x < y)%Q.
Proof.
  unfold Qltb. rewrite negb_true_iff, <- not_true_iff_false, Qle_bool_iff.
  split; [apply Qnot_le_lt | apply Qlt_not_le].
Qed.

Lemma Qltb_ge (x y : Q) : Qltb x y = false ↔ (y <= x)%Q.
Proof. unfold Qltb. rewrite negb_false_iff. apply Qle_bool_iff. Qed.

Lemma num_lt_spec (a b : num) : num_lt a b = true ↔ (num_Q a < num_Q b)%Q.
Proof. apply Qltb_lt. Qed.

Lemma two53_pos : 0 < two53.
Proof. reflexivity. Qed.

Lemma first_sample_range (g : rng) :
  (0 <= first_sample g)%Q ∧ (first_sample g < 1)%Q.
Proof.
  unfold first_sample, random_random, next_word. cbn [fst].
  pose proof (Z.mod_pos_bound (g 0%nat) two53 two53_pos) as [Hlo Hhi].
  unfold Qle, Qlt. cbn [Qnum Qden]. rewrite Z2Pos.id by apply two53_pos. lia.
Qed.
Lemma random_randint_range (a b : Z) (g : rng) :
  a ≤ b →
  ∃ z, random_randint a b g = Ok (z, (next_word g).2) ∧ a ≤ z ≤ b.
Proof.
  intros Hab. unfold random_randint.
  destruct (Z.ltb_spec b a) as [?|_]; [lia|].
  simpl. eexists. split; [reflexivity|].
  pose proof (Z.mod_pos_bound (g 0%nat) (b - a + 1)). lia.
Qed.

Lemma random_choice_elem {A} (seq : list A) (g : rng) :
  seq ≠ [] →
  ∃ x, random_choice seq g = Ok (x, (next_word g).2) ∧ x ∈ seq.
Proof.
  intros Hne. unfold random_choice. simpl.
  assert (0 < Z.of_nat (length seq)) as Hlen
    by (destruct seq; [done | simpl; lia]).
  pose proof (Z.mod_pos_bound (g 0%nat) _ Hlen) as [Hlo Hhi].
  destruct (lookup_lt_is_Some_2 seq
              (Z.to_nat (g 0%nat mod Z.of_nat (length seq)))) as [x Hx];
    [lia|].
  rewrite Hx. exists x. split; [done|]. by eapply list_elem_of_lookup_2.
Qed.

(** ** [ColumnSchema.generate] *)

Lemma generate_unfold (col : ColumnSchema.t) (g : rng) :
  ColumnSchema.generate col g =
    if Qltb (num_Q (ColumnSchema.completeness col)) (first_sample g)
       && num_lt (ColumnSchema.completeness col) (Float 1)
    then Ok (VNone, after_sample g)
    else value_rule col (after_sample g).
Proof.
  unfold ColumnSchema.generate, value_rule, first_sample, after_sample.
  destruct (random_random g) as [sample g']. simpl.
  by destruct (ColumnSchema.generator_rule col).
Qed.

Lemma null_path_test (col : ColumnSchema.t) (g : rng) :
  Qltb (num_Q (ColumnSchema.completeness col)) (first_sample g)
  && num_lt (ColumnSchema.completeness col) (Float 1) = true
  ↔ null_path col g.
Proof.
  unfold null_path. rewrite andb_true_iff, Qltb_lt, num_lt_spec. simpl. tauto.
Qed.

Lemma generate_null_path (col : ColumnSchema.t) (g : rng) :
  null_path col g → ColumnSchema.generate col g = Ok (VNone, after_sample g).
Proof.
  intros H%null_path_test. rewrite generate_unfold. by rewrite H.
Qed.

Lemma generate_value_path (col : ColumnSchema.t) (g : rng) :
  ¬ null_path col g →
  ColumnSchema.generate col g = value_rule col (after_sample g).
Proof.
  intros H. rewrite generate_unfold.
  destruct (_ && _) eqn:E; [|done]. by apply null_path_test in E.
Qed.

Lemma null_path_dec (col : ColumnSchema.t) (g : rng) :
  null_path col g ∨ ¬ null_path col g.
Proof.
  rewrite <- null_path_test. destruct (_ && _); [by left | by right].
Qed.

(** ** Constructed datatypes *)

Lemma CategoryType_init_inv (categories : param) (d : Datatype.t) :
  Datatype.CategoryType_init categories = Ok d →
  ∃ l, default (CList ["A"; "B"; "C"])%string categories = CList l
       ∧ l ≠ []
       ∧ d = Datatype.CategoryType (elements (list_to_set l : gset string)).
Proof.
  unfold Datatype.CategoryType_init.
  destruct (default _ categories) as [| |n|s|l]; try discriminate.
  case_bool_decide as Hlen; [discriminate|].
  intros [= <-]. exists l. split_and!; [done| |done].
  intros ->. by apply Hlen.
Qed.

Lemma elements_list_to_set_nonempty (l : list string) :
  l ≠ [] → elements (list_to_set l : gset string) ≠ [].
Proof.
  destruct l as [|x l]; [done|]. intros _ Hnil.
  assert (x ∈ elements (list_to_set (x :: l) : gset string)) as Hx
    by (apply elem_of_elements; set_solver).
  rewrite Hnil in Hx. by apply not_elem_of_nil in Hx.
Qed.

Lemma bind_Ok {A B} (r : result A) (k : A → result B) (b : B) :
  r ≫= k = Ok b ↔ ∃ a, r = Ok a ∧ k a = Ok b.
Proof.
  destruct r as [a|e]; simpl; split.
  - intros H. by exists a.
  - by intros (a' & [= <-] & H).
  - done.
  - by intros (a' & [=] & _).
Qed.

(** The rule of a Text, Integer, Decimal or Boolean variant returns a
    string, an int, a float or a bool, or raises: never the null marker. *)
Lemma scalar_rule_not_null (d : Datatype.t) (g : rng) :
  not_category d → returned (Datatype.generator_rule d g) ≠ Ok VNone.
Proof.
  intros Hd. destruct d as [len|lo hi|lo hi|cats|]; simpl.
  - destruct len; [|done]. by destruct (random_choices _ _ _) as [[??]|].
  - by destruct (random_randint _ _ _) as [[??]|].
  - by destruct (random_uniform (num_Q lo) (num_Q hi) g).
  - by destruct Hd.
  - by destruct (random_choice _ _) as [[??]|].
Qed.

(** ** Completeness and the null path (C1, C2) *)

(** C1, as stated, fails twice.  With completeness 0.0 and a sample of
    exactly 0.0 the test [sample > completeness] is false, and the column
    returns a value; with completeness 1.0 an override that returns the
    null marker makes [generate] return it. *)
Lemma C1_counterexample :
  (ColumnSchema.init "x" (ColumnSchema.DtValue (CStr "int"))
     (Some (CNum (Float 0))) None ∅ = Ok never_complete_column
   ∧ (num_Q (ColumnSchema.completeness never_complete_column) == 0)%Q
   ∧ first_sample (constant_rng 0) = (0 # Z.to_pos two53)%Q
   ∧ returned (ColumnSchema.generate never_complete_column (constant_rng 0))
     = Ok (VInt 0))
  ∧ (ColumnSchema.init "x" (ColumnSchema.DtValue CNone) None
       (Some null_override) ∅ = Ok null_override_column
     ∧ (num_Q (ColumnSchema.completeness null_override_column) == 1)%Q
     ∧ returned (ColumnSchema.generate null_override_column (constant_rng 0))
       = Ok VNone).
Proof. repeat split. Qed.

(** C1, amended: with completeness 0.0 every call whose sample is
    positive returns the null marker; with completeness 1.0 no sample
    leads to the null path and the call returns what the override or else
    the datatype's rule returns, which is never the null marker for a
    column without override whose datatype is a Text, Integer, Decimal or
    Boolean variant. *)
Theorem C1_completeness_boundary (col : ColumnSchema.t) (g : rng) :
  ((num_Q (ColumnSchema.completeness col) == 0)%Q →
   (0 < first_sample g)%Q →
   ColumnSchema.generate col g = Ok (VNone, after_sample g))
  ∧ ((num_Q (ColumnSchema.completeness col) == 1)%Q →
     ColumnSchema.generate col g = value_rule col (after_sample g))
  ∧ ((num_Q (ColumnSchema.completeness col) == 1)%Q →
     ColumnSchema.generator_rule col = None →
     not_category (ColumnSchema.datatype col) →
     returned (ColumnSchema.generate col g) ≠ Ok VNone).
Proof.
  assert ((num_Q (ColumnSchema.completeness col) == 1)%Q →
          ColumnSchema.generate col g = value_rule col (after_sample g))
    as Hone.
  { intros Hc. apply generate_value_path. intros [Hlt _].
    rewrite Hc in Hlt. by apply Qlt_irrefl in Hlt. }
  split_and!; [|done|].
  - intros Hc Hpos. apply generate_null_path. split; by rewrite Hc.
  - intros Hc Hrule Hd. rewrite (Hone Hc). unfold value_rule.
    rewrite Hrule. by apply scalar_rule_not_null.
Qed.

Lemma C1_completeness_boundary_witness :
  ColumnSchema.generate never_complete_column (constant_rng 1)
  = Ok (VNone, after_sample (constant_rng 1))
  ∧ returned (ColumnSchema.generate complete_column (constant_rng 0))
    ≠ Ok VNone.
Proof.
  split.
  - apply (C1_completeness_boundary never_complete_column (constant_rng 1));
      reflexivity.
  - apply (C1_completeness_boundary complete_column (constant_rng 0));
      [reflexivity | reflexivity | exact I].
Defined.

(** C2, as stated, fails on a column whose override returns the null
    marker: with completeness 1.0 the null path is not taken, and
    [generate] returns the null marker all the same. *)
Lemma C2_counterexample :
  returned (ColumnSchema.generate null_override_column (constant_rng 0))
  = Ok VNone
  ∧ ¬ null_path null_override_column (constant_rng 0).
Proof.
  split; [reflexivity|]. intros [Hlt _]. by apply Qlt_irrefl in Hlt.
Qed.

(** C2, amended: when completeness < 1.0 and the sample exceeds
    completeness, [generate] returns the null marker at once; otherwise it
    returns the result of the override when there is one, and of the
    datatype's rule when there is none.  So the null marker is returned
    exactly in the first case, or when the rule in force returns it
    itself; the latter never happens for a column without override whose
    datatype is a Text, Integer, Decimal or Boolean variant. *)
Theorem C2_generate_algorithm (col : ColumnSchema.t) (g : rng) :
  (null_path col g →
   ColumnSchema.generate col g = Ok (VNone, after_sample g))
  ∧ (¬ null_path col g → ∀ override,
     ColumnSchema.generator_rule col = Some override →
     ColumnSchema.generate col g = override (after_sample g))
  ∧ (¬ null_path col g →
     ColumnSchema.generator_rule col = None →
     ColumnSchema.generate col g
     = Datatype.generator_rule (ColumnSchema.datatype col) (after_sample g))
  ∧ (ColumnSchema.generator_rule col = None →
     not_category (ColumnSchema.datatype col) →
     (returned (ColumnSchema.generate col g) = Ok VNone ↔ null_path col g))
  ∧ (∀ override,
     ColumnSchema.generator_rule col = Some override →
     (returned (ColumnSchema.generate col g) = Ok VNone
      ↔ null_path col g ∨ returned (override (after_sample g)) = Ok VNone))
  ∧ (ColumnSchema.generator_rule col = None →
     (returned (ColumnSchema.generate col g) = Ok VNone
      ↔ null_path col g
        ∨ returned (Datatype.generator_rule (ColumnSchema.datatype col)
                      (after_sample g)) = Ok VNone)).
Proof.
  split_and!.
  - apply generate_null_path.
  - intros Hn override Hrule. rewrite generate_value_path by done.
    unfold value_rule. by rewrite Hrule.
  - intros Hn Hrule. rewrite generate_value_path by done.
    unfold value_rule. by rewrite Hrule.
  - intros Hrule Hd. split.
    + intros Hret. destruct (null_path_dec col g) as [|Hn]; [done|].
      rewrite generate_value_path in Hret by done.
      unfold value_rule in Hret. rewrite Hrule in Hret.
      by apply scalar_rule_not_null in Hret.
    + intros Hn. by rewrite generate_null_path.
  - intros override Hrule.
    destruct (null_path_dec col g) as [Hn|Hn].
    + rewrite generate_null_path by done. simpl. tauto.
    + rewrite generate_value_path by done. unfold value_rule.
      rewrite Hrule. tauto.
  - intros Hrule.
    destruct (null_path_dec col g) as [Hn|Hn].
    + rewrite generate_null_path by done. simpl. tauto.
    + rewrite generate_value_path by done. unfold value_rule.
      rewrite Hrule. tauto.
Qed.

Lemma C2_generate_algorithm_witness :
  ColumnSchema.generate never_complete_column (constant_rng 1)
  = Ok (VNone, after_sample (constant_rng 1))
  ∧ ColumnSchema.generate null_override_column (constant_rng 0)
    = null_override (after_sample (constant_rng 0))
  ∧ ColumnSchema.generate complete_column (constant_rng 0)
    = Datatype.generator_rule (Datatype.IntegerType 0 100)
        (after_sample (constant_rng 0)).
Proof.
  assert (∀ col, ColumnSchema.completeness col = Float 1 →
                 ¬ null_path col (constant_rng 0)) as Hone.
  { intros col Hc [Hlt _]. rewrite Hc in Hlt. by apply Qlt_irrefl in Hlt. }
  split_and!.
  - apply (C2_generate_algorithm never_complete_column (constant_rng 1)).
    split; reflexivity.
  - apply (C2_generate_algorithm null_override_column (constant_rng 0));
      [by apply Hone | reflexivity].
  - apply (C2_generate_algorithm complete_column (constant_rng 0));
      [by apply Hone | reflexivity].
Defined.

(** ** Constructors of the datatypes (C3, C4) *)

Lemma Qle_bool_inject_Z (x y : Z) :
  Qle_bool (inject_Z x) (inject_Z y) = (x <=? y).
Proof. unfold Qle_bool, inject_Z. simpl. by rewrite !Z.mul_1_r. Qed.

Lemma Qltb_inject_Z (x y : Z) : Qltb (inject_Z x) (inject_Z y) = (x <? y).
Proof. unfold Qltb. rewrite Qle_bool_inject_Z. apply eq_sym, Z.ltb_antisym. Qed.

Lemma py_max_Int (x y : Z) : py_max (Int x) (Int y) = Int (Z.max x y).
Proof.
  unfold py_max, num_gt, num_lt. simpl. rewrite Qltb_inject_Z.
  destruct (Z.ltb_spec x y); f_equal; lia.
Qed.

Lemma py_min_Int (x y : Z) : py_min (Int x) (Int y) = Int (Z.min x y).
Proof.
  unfold py_min, num_lt. simpl. rewrite Qltb_inject_Z.
  destruct (Z.ltb_spec y x); f_equal; lia.
Qed.

Lemma num_ge_Int (x y : Z) : num_ge (Int x) (Int y) = (y <=? x).
Proof. unfold num_ge, num_le. simpl. apply Qle_bool_inject_Z. Qed.

(** C3, as stated, fails: a lower bound of -50 alone gives the upper bound
    100, not 50, and an upper bound of 200 alone gives the lower bound 0,
    not 100. *)
Lemma C3_counterexample :
  Datatype.IntegerType_init (Some (CNum (Int (-50)))) (Some CNone)
  = Ok (Datatype.IntegerType (-50) 100)
  ∧ 100 ≠ -50 + 100
  ∧ Datatype.IntegerType_init (Some CNone) (Some (CNum (Int 200)))
    = Ok (Datatype.IntegerType 0 200)
  ∧ 0 ≠ 200 - 100.
Proof. repeat split; discriminate. Qed.

(** C3, amended: when only [min_value = a] is given and [max_value] is
    [None], [max_value] is [max(100 + a, 100)]; when only [max_value = b]
    is given and [min_value] is [None], [min_value] is [min(b - 100, 0)].
    When the other bound is left out of the call, its parameter default
    (100, or 0) applies and the bounds are then checked. *)
Theorem C3_integer_one_bound (a b : Z) :
  Datatype.IntegerType_init (Some (CNum (Int a))) (Some CNone)
  = Ok (Datatype.IntegerType a (Z.max (100 + a) 100))
  ∧ Datatype.IntegerType_init (Some CNone) (Some (CNum (Int b)))
    = Ok (Datatype.IntegerType (Z.min (b - 100) 0) b)
  ∧ Datatype.IntegerType_init (Some (CNum (Int a))) None
    = (if a <? 100 then Ok (Datatype.IntegerType a 100)
       else Raise ValueError)
  ∧ Datatype.IntegerType_init None (Some (CNum (Int b)))
    = (if 0 <? b then Ok (Datatype.IntegerType 0 b) else Raise ValueError).
Proof.
  unfold Datatype.IntegerType_init. simpl.
  rewrite py_max_Int, py_min_Int, !num_ge_Int. simpl.
  split_and!.
  - destruct (Z.leb_spec (Z.max (100 + a) 100) a); [lia | done].
  - destruct (Z.leb_spec b (Z.min (b - 100) 0)); [lia | done].
  - rewrite Z.ltb_antisym. by destruct (100 <=? a).
  - rewrite Z.ltb_antisym. by destruct (b <=? 0).
Qed.

(** C4, as stated, fails when the categories are not supplied: the
    parameter default [["A", "B", "C"]] takes their place and the
    construction succeeds. *)
Lemma C4_counterexample :
  ∃ cats, Datatype.CategoryType_init None = Ok (Datatype.CategoryType cats).
Proof. eexists. reflexivity. Qed.

(** C4, amended: construction of a Category variant fails with an
    invalid-parameter error when the categories are [None] or empty; when
    they are not supplied, the default labels A, B, C are used; when a
    non-empty list is passed, construction succeeds and the stored
    categories are duplicate-free and have the members of the input. *)
Theorem C4_category_construction :
  Datatype.CategoryType_init (Some CNone) = Raise ValueError
  ∧ Datatype.CategoryType_init (Some (CList [])) = Raise ValueError
  ∧ Datatype.CategoryType_init None
    = Datatype.CategoryType_init (Some (CList ["A"; "B"; "C"]))
  ∧ ∀ l : list string, l ≠ [] →
      ∃ cats, Datatype.CategoryType_init (Some (CList l))
              = Ok (Datatype.CategoryType cats)
              ∧ NoDup cats
              ∧ ∀ x, x ∈ cats ↔ x ∈ l.
Proof.
  split_and!; [done..|].
  intros l Hl. exists (elements (list_to_set l : gset string)).
  split_and!.
  - unfold Datatype.CategoryType_init. simpl.
    case_bool_decide as Hlen; [|done]. by destruct l.
  - apply NoDup_elements.
  - intros x. by rewrite elem_of_elements, elem_of_list_to_set.
Qed.

Lemma C4_category_construction_witness :
  ∃ cats, Datatype.CategoryType_init (Some (CList ["USA"; "USA"; "Canada"]))
          = Ok (Datatype.CategoryType cats)
          ∧ NoDup cats
          ∧ ∀ x, x ∈ cats ↔ x ∈ ["USA"; "USA"; "Canada"].
Proof.
  apply C4_category_construction. discriminate.
Defined.

(** ** Construction of a column (C9) *)




(** ** The store *)

Lemma alloc_fresh (o : object) (σ : gmap loc object) :
  σ !! (alloc o σ).1 = None.
Proof. apply (not_elem_of_dom (D := gset loc)), is_fresh. Qed.

Lemma alloc_lookup (o : object) (σ : gmap loc object) :
  (alloc o σ).2 !! (alloc o σ).1 = Some o.
Proof. apply lookup_insert_eq. Qed.

Lemma alloc_preserves (o o' : object) (σ : gmap loc object) (l : loc) :
  σ !! l = Some o' → (alloc o σ).2 !! l = Some o'.
Proof.
  intros Hl. pose proof (alloc_fresh o σ) as Hfresh.
  unfold alloc in *. simpl in *. rewrite lookup_insert_ne; [done|].
  intros <-. by rewrite Hfresh in Hl.
Qed.

(** ** [TableSchema.generate] *)

Lemma generate_rows_no_columns (n : nat) (g : rng) :
  TableSchema.generate_rows n [] g = Ok (replicate n [], g).
Proof. induction n as [|n IH]; [done|]. simpl. by rewrite IH. Qed.

Lemma generate_unset (self : loc) (num_rows : Z) (σ : gmap loc object)
    (g : rng) :
  σ !! self = Some (TableSchemaObj None) →
  TableSchema.generate self num_rows σ g = Raise ValueError.
Proof.
  intros Hself. unfold TableSchema.generate, TableSchema.get_columns.
  by rewrite Hself.
Qed.

Lemma generate_empty_list (self l : loc) (num_rows : Z)
    (σ : gmap loc object) (g : rng) :
  σ !! self = Some (TableSchemaObj (Some l)) →
  σ !! l = Some (ListObj []) →
  TableSchema.generate self num_rows σ g
  = Ok (mk_DataFrame [] (replicate (Z.to_nat num_rows) []), g).
Proof.
  intros Hself Hl.
  unfold TableSchema.generate, TableSchema.get_columns, TableSchema.get_items.
  rewrite Hself. simpl. rewrite Hl. simpl.
  by rewrite generate_rows_no_columns.
Qed.

Lemma remove_column_present (self l : loc) (items : list ColumnSchema.t)
    (column_name : string) (σ : gmap loc object) :
  σ !! self = Some (TableSchemaObj (Some l)) →
  σ !! l = Some (ListObj items) →
  ∃ l' σ',
    TableSchema.remove_column self column_name σ = Ok σ'
    ∧ σ !! l' = None
    ∧ σ' !! self = Some (TableSchemaObj (Some l'))
    ∧ σ' !! l'
      = Some (ListObj (filter (fun col => ColumnSchema.name col ≠ column_name)
                         items)).
Proof.
  intros Hself Hl.
  unfold TableSchema.remove_column, TableSchema.get_columns,
    TableSchema.get_items.
  rewrite Hself. simpl. rewrite Hl. simpl.
  set (o := ListObj _).
  change (fresh (dom σ)) with (alloc o σ).1.
  change (<[(alloc o σ).1 := o]> σ) with (alloc o σ).2.
  pose proof (alloc_fresh o σ) as Hfresh.
  pose proof (alloc_lookup o σ) as Hnew.
  destruct (alloc o σ) as [l' σ1]. simpl in *.
  exists l', (<[self := TableSchemaObj (Some l')]> σ1).
  split_and!; [done | done | apply lookup_insert_eq |].
  rewrite lookup_insert_ne; [done|]. intros ->. by rewrite Hfresh in Hself.
Qed.

(** Once every column has been removed, the schema holds an empty list and
    [generate] returns empty records. *)
Lemma generate_after_removing_all (self l : loc)
    (items : list ColumnSchema.t) (column_name : string)
    (σ σ' : gmap loc object) (num_rows : Z) (g : rng) :
  σ !! self = Some (TableSchemaObj (Some l)) →
  σ !! l = Some (ListObj items) →
  Forall (fun col => ColumnSchema.name col = column_name) items →
  TableSchema.remove_column self column_name σ = Ok σ' →
  TableSchema.generate self num_rows σ' g
  = Ok (mk_DataFrame [] (replicate (Z.to_nat num_rows) []), g).
Proof.
  intros Hself Hl Hall Hcall.
  destruct (remove_column_present self l items column_name σ Hself Hl)
    as (l' & σ1 & Hcall' & _ & Hself' & Hl').
  rewrite Hcall in Hcall'. injection Hcall' as <-.
  apply generate_empty_list with (l := l'); [done|].
  rewrite Hl'. do 2 f_equal.
  clear -Hall. induction Hall as [|col items Hcol _ IH]; [done|].
  rewrite filter_cons. by destruct (decide (ColumnSchema.name col ≠ column_name)).
Qed.

(** C5 at its failing input: a schema whose only column has been removed
    holds an empty list, and [generate] then returns a table of
    [num_rows] empty records instead of raising the empty-schema error.
    The error is raised when the column list is absent. *)
Theorem C5_empty_list_generates (num_rows : Z) (g : rng) :
  (∃ t σ, TableSchema.init None ∅ = Ok (t, σ)
          ∧ TableSchema.generate t num_rows σ g = Raise ValueError)
  ∧ (∃ t σ,
       ('(t, σ) ← TableSchema.init None ∅;
        σ ← TableSchema.add_column t (inr "a") σ;
        σ ← TableSchema.remove_column t "a" σ;
        Ok (t, σ)) = Ok (t, σ)
       ∧ TableSchema.generate t num_rows σ g
         = Ok (mk_DataFrame [] (replicate (Z.to_nat num_rows) []), g)).
Proof.
  split.
  - eexists _, _. split; [reflexivity|]. by apply generate_unset.
  - eexists _, _. split; [vm_compute; reflexivity|].
    by apply generate_empty_list with (l := 3%positive).
Qed.

(** ** [TableSchema.select_columns] (C8, C10) *)

Lemma select_columns_present (self l : loc) (items : list ColumnSchema.t)
    (names : list string) (σ : gmap loc object) :
  σ !! self = Some (TableSchemaObj (Some l)) →
  σ !! l = Some (ListObj items) →
  ∃ new cols σ',
    TableSchema.select_columns self names σ = Ok (new, σ')
    ∧ σ !! new = None ∧ σ !! cols = None
    ∧ σ' !! new = Some (TableSchemaObj (Some cols))
    ∧ σ' !! cols
      = Some (ListObj (filter (fun col => ColumnSchema.name col ∈ names)
                         items))
    ∧ ∀ l0 o, σ !! l0 = Some o → σ' !! l0 = Some o.
Proof.
  intros Hself Hl.
  unfold TableSchema.select_columns, TableSchema.get_columns,
    TableSchema.get_items, TableSchema.init.
  rewrite Hself. simpl. rewrite Hl. simpl.
  set (o1 := ListObj _).
  change (fresh (dom σ)) with (alloc o1 σ).1.
  change (<[(alloc o1 σ).1 := o1]> σ) with (alloc o1 σ).2.
  pose proof (alloc_fresh o1 σ) as Hf1.
  pose proof (alloc_lookup o1 σ) as Hl1.
  pose proof (fun l0 o' => alloc_preserves o1 o' σ l0) as Hp1.
  destruct (alloc o1 σ) as [cols σ1]. simpl in *.
  set (o2 := TableSchemaObj (Some cols)).
  pose proof (alloc_fresh o2 σ1) as Hf2.
  pose proof (alloc_lookup o2 σ1) as Hl2.
  pose proof (fun l0 o' => alloc_preserves o2 o' σ1 l0) as Hp2.
  exists (alloc o2 σ1).1, cols, (alloc o2 σ1).2.
  split_and!; [by destruct (alloc o2 σ1) | | done | done | by apply Hp2 | ].
  - destruct (σ !! (alloc o2 σ1).1) as [o'|] eqn:E; [|done].
    apply Hp1 in E. by rewrite Hf2 in E.
  - intros l0 o' Hl0. by apply Hp2, Hp1.
Qed.

Lemma select_columns_unset (self : loc) (names : list string)
    (σ : gmap loc object) :
  σ !! self = Some (TableSchemaObj None) →
  TableSchema.select_columns self names σ = Raise TypeError.
Proof.
  intros Hself. unfold TableSchema.select_columns, TableSchema.get_columns.
  by rewrite Hself.
Qed.

(** The schema that [select_columns] returns has a list of its own:
    adding a column to it leaves the receiver and its list as they were. *)
Lemma select_columns_then_add (self l : loc) (items : list ColumnSchema.t)
    (names : list string) (c : ColumnSchema.t) (σ σ' : gmap loc object)
    (new : loc) :
  σ !! self = Some (TableSchemaObj (Some l)) →
  σ !! l = Some (ListObj items) →
  TableSchema.select_columns self names σ = Ok (new, σ') →
  ∃ σ'', TableSchema.add_column new (inl c) σ' = Ok σ''
         ∧ σ'' !! self = Some (TableSchemaObj (Some l))
         ∧ σ'' !! l = Some (ListObj items).
Proof.
  intros Hself Hl Hcall.
  destruct (select_columns_present self l items names σ Hself Hl)
    as (new' & cols & σ1 & Hcall' & Hnew & Hcols & Hnew' & Hcols' & Hold).
  rewrite Hcall in Hcall'. injection Hcall' as <- <-.
  unfold TableSchema.add_column, TableSchema.get_columns,
    TableSchema.get_items.
  simpl. rewrite Hnew'. simpl. rewrite Hcols'. simpl.
  eexists. split; [reflexivity|].
  rewrite !lookup_insert_ne; [by split; apply Hold | |];
    intros ->; congruence.
Qed.

(** By contrast, the constructor keeps the list it is given: a column added
    through the schema is added to that very list. *)
Lemma init_shares_list (l : loc) (items : list ColumnSchema.t)
    (c : ColumnSchema.t) (σ : gmap loc object) :
  σ !! l = Some (ListObj items) →
  ∃ t σ1 σ2,
    TableSchema.init (Some l) σ = Ok (t, σ1)
    ∧ TableSchema.add_column t (inl c) σ1 = Ok σ2
    ∧ σ2 !! l = Some (ListObj (items ++ [c])).
Proof.
  intros Hl. unfold TableSchema.init.
  set (o := TableSchemaObj (Some l)).
  pose proof (alloc_lookup o σ) as Hnew.
  pose proof (alloc_preserves o _ σ l Hl) as Hold.
  destruct (alloc o σ) as [t σ1]. simpl in *.
  exists t, σ1, (<[l := ListObj (items ++ [c])]> σ1).
  split_and!; [done | | apply lookup_insert_eq].
  unfold TableSchema.add_column, TableSchema.get_columns,
    TableSchema.get_items.
  simpl. rewrite Hnew. simpl. by rewrite Hold.
Qed.

(** C10: on a schema whose column list is absent, [select_columns] raises
    for every list of names; the empty list that its first statement
    prepares is never used. *)
Theorem C10_select_columns_unset (self : loc) (names : list string)
    (σ : gmap loc object) :
  σ !! self = Some (TableSchemaObj None) →
  TableSchema.select_columns self names σ = Raise TypeError.
Proof.
  intros Hself.
  unfold TableSchema.select_columns, TableSchema.get_columns.
  rewrite Hself. reflexivity.
Qed.

Lemma C10_select_columns_unset_witness :
  TableSchema.select_columns 1%positive ["a"]
    {[1%positive := TableSchemaObj None]}
  = Raise TypeError.
Proof. by apply C10_select_columns_unset. Defined.

(** C8: on a schema whose column list is present, [select_columns]
    allocates a new list and a new schema, the list holds exactly the
    receiver's columns whose name is among the given ones, in the
    receiver's order, and no object of the store before the call is
    changed.  At the failing input, a schema without column list, the call
    raises instead. *)
Theorem C8_select_columns :
  (∀ (self l : loc) (items : list ColumnSchema.t) (names : list string)
     (σ : gmap loc object),
     σ !! self = Some (TableSchemaObj (Some l)) →
     σ !! l = Some (ListObj items) →
     ∃ new cols selected σ',
       TableSchema.select_columns self names σ = Ok (new, σ')
       ∧ σ !! new = None ∧ σ !! cols = None
       ∧ σ' !! new = Some (TableSchemaObj (Some cols))
       ∧ σ' !! cols = Some (ListObj selected)
       ∧ selected = filter (fun col => ColumnSchema.name col ∈ names) items
       ∧ selected `sublist_of` items
       ∧ (∀ col, col ∈ selected ↔ col ∈ items ∧ ColumnSchema.name col ∈ names)
       ∧ σ' !! self = Some (TableSchemaObj (Some l))
       ∧ σ' !! l = Some (ListObj items)
       ∧ ∀ l0 o, σ !! l0 = Some o → σ' !! l0 = Some o)
  ∧ (∃ t σ, TableSchema.init None ∅ = Ok (t, σ)
            ∧ TableSchema.select_columns t ["a"] σ = Raise TypeError).
Proof.
  split.
  - intros self l items names σ Hself Hl.
    destruct (select_columns_present self l items names σ Hself Hl)
      as (new & cols & σ' & Hcall & Hnew & Hcols & Hnew' & Hcols' & Hold).
    exists new, cols,
      (filter (fun col => ColumnSchema.name col ∈ names) items), σ'.
    split_and!; [done..| | |by apply Hold|by apply Hold|done].
    + apply sublist_filter.
    + intros col. rewrite list_elem_of_filter. tauto.
  - eexists _, _. split; [reflexivity|]. by apply select_columns_unset.
Qed.

Lemma C8_select_columns_witness :
  ∃ new cols selected σ',
    TableSchema.select_columns 2%positive ["c"; "a"] abc_store = Ok (new, σ')
    ∧ abc_store !! new = None ∧ abc_store !! cols = None
    ∧ σ' !! new = Some (TableSchemaObj (Some cols))
    ∧ σ' !! cols = Some (ListObj selected)
    ∧ selected = [text_column "a"; text_column "c"]
    ∧ selected `sublist_of` [text_column "a"; text_column "b"; text_column "c"]
    ∧ (∀ col, col ∈ selected ↔
              col ∈ [text_column "a"; text_column "b"; text_column "c"]
              ∧ ColumnSchema.name col ∈ ["c"; "a"])
    ∧ σ' !! 2%positive = Some (TableSchemaObj (Some 1%positive))
    ∧ σ' !! 1%positive
      = Some (ListObj [text_column "a"; text_column "b"; text_column "c"])
    ∧ ∀ l0 o, abc_store !! l0 = Some o → σ' !! l0 = Some o.
Proof.
  destruct (proj1 C8_select_columns 2%positive 1%positive
              [text_column "a"; text_column "b"; text_column "c"]
              ["c"; "a"] abc_store eq_refl eq_refl)
    as (new & cols & selected & σ' & H).
  exists new, cols, selected, σ'.
  repeat (destruct H as [? H]). by split_and!.
Defined.

(** ** Generation of rows (C6) *)

Lemma floor_index_range (u : Q) (n : Z) :
  (0 <= u)%Q → (u < 1)%Q → 0 < n → 0 ≤ Qfloor (u * inject_Z n) < n.
Proof.
  intros Hlo Hhi Hn.
  assert (0 < inject_Z n)%Q as HnQ
    by (change 0%Q with (inject_Z 0); by rewrite <- Zlt_Qlt).
  split.
  - change 0 with (Qfloor 0). apply Qfloor_resp_le.
    apply Qmult_le_0_compat; [done | by apply Qlt_le_weak].
  - rewrite Zlt_Qlt. eapply Qle_lt_trans; [apply Qfloor_le|].
    rewrite <- (Qmult_1_l (inject_Z n)) at 2. by apply Qmult_lt_r.
Qed.

Lemma random_choices_S {A} (population : list A) (k : nat) (g : rng) :
  random_choices population (S k) g =
    match population !! Z.to_nat (Qfloor (first_sample g
                          * inject_Z (Z.of_nat (length population)))) with
    | Some x =>
        '(rest, g2) ← random_choices population k (after_sample g);
        Ok (x :: rest, g2)
    | None => Raise IndexError
    end.
Proof.
  unfold first_sample, after_sample. cbn [random_choices].
  by destruct (random_random g) as [u g1].
Qed.

Lemma random_choices_total {A} (population : list A) (k : nat) (g : rng) :
  population ≠ [] →
  ∃ xs g', random_choices population k g = Ok (xs, g').
Proof.
  intros Hne. revert g. induction k as [|k IH]; intros g.
  - by eexists _, _.
  - rewrite random_choices_S.
    pose proof (first_sample_range g) as [Hlo Hhi].
    assert (0 < Z.of_nat (length population)) as Hlen
      by (destruct population; [done | simpl; lia]).
    pose proof (floor_index_range _ _ Hlo Hhi Hlen) as [Hi1 Hi2].
    destruct (lookup_lt_is_Some_2 population
                (Z.to_nat (Qfloor (first_sample g
                             * inject_Z (Z.of_nat (length population))))))
      as [x Hx]; [lia|].
    rewrite Hx. destruct (IH (after_sample g)) as (xs & g2 & ->).
    by eexists _, _.
Qed.

(** A text column of integer length always yields a value. *)
Lemma generate_text_total (col : ColumnSchema.t) (k : Z) (g : rng) :
  ColumnSchema.datatype col = Datatype.StringType (Int k) →
  ColumnSchema.generator_rule col = None →
  ∃ v g', ColumnSchema.generate col g = Ok (v, g').
Proof.
  intros Hd Hrule. rewrite generate_unfold.
  destruct (_ && _); [by eexists _, _|].
  unfold value_rule. rewrite Hrule, Hd. simpl.
  destruct (random_choices_total Datatype.alphabet (Z.to_nat k)
              (after_sample g)) as (cs & g' & ->); [done|].
  by eexists _, _.
Qed.

(** A complete integer column always yields an integer within its
    bounds. *)
Lemma generate_integer_complete (col : ColumnSchema.t) (lo hi : Z) (g : rng) :
  ColumnSchema.datatype col = Datatype.IntegerType lo hi →
  ColumnSchema.generator_rule col = None →
  (num_Q (ColumnSchema.completeness col) == 1)%Q →
  lo ≤ hi →
  ∃ z g', ColumnSchema.generate col g = Ok (VInt z, g') ∧ lo ≤ z ≤ hi.
Proof.
  intros Hd Hrule Hc Hbounds. rewrite generate_value_path.
  - unfold value_rule. rewrite Hrule, Hd. simpl.
    destruct (random_randint_range lo hi (after_sample g) Hbounds)
      as (z & -> & Hz).
    by eexists _, _.
  - intros [Hlt _]. rewrite Hc in Hlt. by apply Qlt_irrefl in Hlt.
Qed.

Lemma generate_rows_integer_text (age email : ColumnSchema.t) (lo hi k : Z)
    (n : nat) (g : rng) :
  ColumnSchema.datatype age = Datatype.IntegerType lo hi →
  ColumnSchema.generator_rule age = None →
  (num_Q (ColumnSchema.completeness age) == 1)%Q →
  lo ≤ hi →
  ColumnSchema.datatype email = Datatype.StringType (Int k) →
  ColumnSchema.generator_rule email = None →
  ∃ data g', TableSchema.generate_rows n [age; email] g = Ok (data, g')
             ∧ length data = n
             ∧ Forall (integer_then_any lo hi) data.
Proof.
  intros Hd Hrule Hc Hbounds Hd' Hrule'. revert g.
  induction n as [|n IH]; intros g.
  - exists [], g. by split_and!.
  - destruct (generate_integer_complete age lo hi g Hd Hrule Hc Hbounds)
      as (z & g1 & Hage & Hz).
    destruct (generate_text_total email k g1 Hd' Hrule') as (v & g2 & Hemail).
    destruct (IH g2) as (data & g3 & Hrows & Hlen & Hall).
    exists ([VInt z; v] :: data), g3. split_and!.
    + simpl. rewrite Hage. simpl. rewrite Hemail. simpl. by rewrite Hrows.
    + simpl. by rewrite Hlen.
    + constructor; [by exists z, v | done].
Qed.

Lemma generate_present (self l : loc) (cols : list ColumnSchema.t)
    (num_rows : Z) (σ : gmap loc object) (g : rng) :
  σ !! self = Some (TableSchemaObj (Some l)) →
  σ !! l = Some (ListObj cols) →
  TableSchema.generate self num_rows σ g =
    '(data, g') ← TableSchema.generate_rows (Z.to_nat num_rows) cols g;
    Ok (mk_DataFrame (ColumnSchema.name <$> cols) data, g').
Proof.
  intros Hself Hl.
  unfold TableSchema.generate, TableSchema.get_columns, TableSchema.get_items.
  rewrite Hself. simpl. by rewrite Hl.
Qed.

Lemma from_dataframe_age_email (as_float : bool) :
  TableSchema.from_dataframe (age_email_frame as_float) ∅
  = Ok (2%positive, age_email_store as_float).
Proof. destruct as_float; vm_compute; reflexivity. Qed.

(** C6, as stated, fails: a frame with only the columns that the two
    records mention has no [length] column, and [from_dataframe] raises a
    key error on its first row. *)
Lemma C6_counterexample :
  TableSchema.from_dataframe age_email_records ∅ = Raise KeyError.
Proof. reflexivity. Qed.

(** C6, amended: for the configuration over the seven columns name,
    datatype, length, domain, max, min, completeness whose rows are the Age
    and Email records, the other cells being not-available,
    [from_dataframe] followed by [generate(100)] yields, for every state of
    the random source, a table with the fields Age and Email and exactly
    100 records, in each of which Age is an integer between 18 and 65. *)
Theorem C6_round_trip (as_float : bool) (g : rng) :
  ∃ t σ,
    TableSchema.from_dataframe (age_email_frame as_float) ∅ = Ok (t, σ)
    ∧ ∃ table g',
        TableSchema.generate t 100 σ g = Ok (table, g')
        ∧ df_columns table = ["Age"; "Email"]
        ∧ length (df_data table) = 100%nat
        ∧ Forall (integer_then_any 18 65) (df_data table).
Proof.
  exists 2%positive, (age_email_store as_float).
  split; [apply from_dataframe_age_email|].
  destruct (generate_rows_integer_text (age_column as_float) email_column
              18 65 10 (Z.to_nat 100) g)
    as (data & g' & Hrows & Hlen & Hall);
    [done | done | by destruct as_float | lia | done | done |].
  exists (mk_DataFrame ["Age"; "Email"] data), g'. split_and!; [|done..].
  rewrite (generate_present 2%positive 1%positive
             [age_column as_float; email_column]) by done.
  by rewrite Hrows.
Qed.

(** ** The domain of a category row (C7) *)

Lemma generate_category_complete (col : ColumnSchema.t) (cats : list string)
    (g : rng) :
  ColumnSchema.datatype col = Datatype.CategoryType cats →
  ColumnSchema.generator_rule col = None →
  (num_Q (ColumnSchema.completeness col) == 1)%Q →
  cats ≠ [] →
  ∃ v, returned (ColumnSchema.generate col g) = Ok (VStr v) ∧ v ∈ cats.
Proof.
  intros Hd Hrule Hc Hne. rewrite generate_value_path.
  - unfold value_rule. rewrite Hrule, Hd. simpl.
    destruct (random_choice_elem cats (after_sample g) Hne) as (v & -> & Hv).
    exists v. by destruct cats.
  - intros [Hlt _]. rewrite Hc in Hlt. by apply Qlt_irrefl in Hlt.
Qed.

(** C7 at its failing input: for a category row whose domain is a list of
    one label, [from_dataframe] builds the column that the constructor
    builds without categories, because the keyword [domain] is not a
    parameter of [CategoryType] and is filtered out; every value the column
    generates is one of the default labels A, B, C, and for the domain
    [["USA"]] none is a member of the domain.  For a domain of two labels
    or more, the normalisation of the row raises. *)
Theorem C7_domain_ignored (name label label' : string) (more : list string)
    (g : rng) :
  (∃ col,
     TableSchema.from_dataframe (category_frame name [label]) ∅
     = Ok (2%positive,
           <[2%positive := TableSchemaObj (Some 1%positive)]>
             {[1%positive := ListObj [col]]})
     ∧ Ok (ColumnSchema.datatype col) = Datatype.CategoryType_init None
     ∧ ∃ v, returned (ColumnSchema.generate col g) = Ok (VStr v)
            ∧ v ∈ ["A"; "B"; "C"] ∧ v ∉ ["USA"])
  ∧ TableSchema.from_dataframe (category_frame name (label :: label' :: more)) ∅
    = Raise ValueError.
Proof.
  split; [|reflexivity].
  eexists. split; [vm_compute; reflexivity|]. split; [reflexivity|].
  match goal with
  | |- context [ColumnSchema.generate ?c g] =>
      let d := eval vm_compute in (ColumnSchema.datatype c) in
      match d with
      | Datatype.CategoryType ?cats =>
          destruct (generate_category_complete c cats g) as (v & Hv & Hin);
            [reflexivity | reflexivity | reflexivity | discriminate | ]
      end
  end.
  exists v. split; [exact Hv|].
  rewrite !list_elem_of_In in *. simpl in *. intuition congruence.
Qed.

(** ** The registry *)

Lemma register_lookup (names : list string) (cls : Datatype.class)
    (registry : gmap string Datatype.class) (name : string) :
  Datatype.register names cls registry !! name
  = if decide (name ∈ names) then Some cls else registry !! name.
Proof.
  unfold Datatype.register. revert registry.
  induction names as [|n names IH]; intros registry; cbn [foldl].
  - destruct (decide (name ∈ [])) as [H|]; [by apply not_elem_of_nil in H|done].
  - rewrite IH. destruct (decide (name ∈ names)) as [Hin|Hout].
    + rewrite decide_True; [done | by right].
    + destruct (decide (name = n)) as [->|Hne].
      * rewrite lookup_insert_eq. rewrite decide_True; [done | by left].
      * rewrite lookup_insert_ne by done.
        rewrite decide_False; [done|]. by intros [?|?]%elem_of_cons.
Qed.

(** X1: after the decorator has registered a class under a list of names,
    each of these names resolves to the class, the last registration
    winning, and every other name resolves as it did before. *)
Theorem X1_register_lookup (names : list string) (cls : Datatype.class)
    (registry : gmap string Datatype.class) :
  (∀ name, name ∈ names →
           Datatype.register names cls registry !! name = Some cls)
  ∧ (∀ name, name ∉ names →
             Datatype.register names cls registry !! name = registry !! name)
  ∧ dom (Datatype.register names cls registry)
    = list_to_set names ∪ dom registry.
Proof.
  split_and!.
  - intros name Hin. rewrite register_lookup. by rewrite decide_True.
  - intros name Hout. rewrite register_lookup. by rewrite decide_False.
  - apply set_eq. intros name.
    rewrite elem_of_union, elem_of_list_to_set, !elem_of_dom, register_lookup.
    destruct (decide (name ∈ names)); [|tauto].
    split; [by left | by eexists].
Qed.

Lemma X1_register_lookup_witness :
  Datatype.register ["int"; "integer"] Datatype.IntegerTypeC ∅ !! "integer"
  = Some Datatype.IntegerTypeC
  ∧ Datatype.register ["int"; "integer"] Datatype.IntegerTypeC
      {["string" := Datatype.StringTypeC]} !! "string"
    = Some Datatype.StringTypeC.
Proof.
  split.
  - apply (X1_register_lookup ["int"; "integer"] Datatype.IntegerTypeC ∅).
    by right; left.
  - rewrite (proj1 (proj2 (X1_register_lookup ["int"; "integer"]
               Datatype.IntegerTypeC {["string" := Datatype.StringTypeC]})));
      [reflexivity|].
    rewrite list_elem_of_In. simpl. intuition discriminate.
Defined.

(** X2: [get_class] resolves exactly the six registered tags, [int] and
    [integer] both to the integer class, and raises the unknown-type error
    on every other name. *)
Theorem X2_get_class (name : string) :
  (∀ cls, Datatype.get_class name = Ok cls ↔ (name, cls) ∈ registered)
  ∧ (Datatype.get_class name = Raise ValueError ↔ name ∉ registered.*1).
Proof.
  unfold Datatype.get_class, Datatype._registry, registered.
  rewrite !register_lookup, lookup_empty. simpl.
  split; [intros cls|];
    repeat case_decide; set_unfold; intuition congruence.
Qed.

(** ** Invariants of the constructed datatypes *)

Lemma quot_le_cross (a b c d : Z) :
  0 < b → 0 < d → a * d ≤ c * b → Z.quot a b ≤ Z.quot c d.
Proof.
  intros Hb Hd Hle.
  pose proof (Z.quot_rem' a b) as Ha. pose proof (Z.quot_rem' c d) as Hc.
  assert (-b < Z.rem a b < b ∧ (0 ≤ a → 0 ≤ Z.rem a b)
          ∧ (a ≤ 0 → Z.rem a b ≤ 0)) as (Hr1 & Hr1p & Hr1n).
  { pose proof (Z.rem_bound_abs a b ltac:(lia)).
    split; [lia|]. split; intros; [apply Z.rem_nonneg | apply Z.rem_nonpos]; lia. }
  assert (-d < Z.rem c d < d ∧ (0 ≤ c → 0 ≤ Z.rem c d)
          ∧ (c ≤ 0 → Z.rem c d ≤ 0)) as (Hr2 & Hr2p & Hr2n).
  { pose proof (Z.rem_bound_abs c d ltac:(lia)).
    split; [lia|]. split; intros; [apply Z.rem_nonneg | apply Z.rem_nonpos]; lia. }
  set (q1 := Z.quot a b) in *. set (r1 := Z.rem a b) in *.
  set (q2 := Z.quot c d) in *. set (r2 := Z.rem c d) in *.
  clearbody q1 r1 q2 r2.
  destruct (Z.le_gt_cases q1 q2) as [|Hgt]; [done|exfalso].
  destruct (Z.le_ge_cases 0 a) as [Ha0|Ha0];
    destruct (Z.le_ge_cases 0 c) as [Hc0|Hc0];
    try specialize (Hr1p Ha0); try specialize (Hr1n Ha0);
    try specialize (Hr2p Hc0); try specialize (Hr2n Hc0).
  3: { assert (q1 ≤ 0) by nia. assert (0 ≤ q2) by nia. lia. }
  all: assert (b * d * (q2 + 1) ≤ b * d * q1)
         by (apply Z.mul_le_mono_nonneg_l; nia);
       assert (r1 * d - r2 * b ≤ b * d * (q2 - q1)) by nia;
       assert (- (b * d) < r1 * d - r2 * b) by nia;
       nia.
Qed.

Lemma py_int_mono (a b : num) :
  (num_Q a <= num_Q b)%Q → py_int a ≤ py_int b.
Proof.
  assert (∀ n, py_int n = Z.quot (Qnum (num_Q n)) (Zpos (Qden (num_Q n))))
    as Hq by (intros [z|q]; simpl; [by rewrite Z.quot_1_r | done]).
  intros Hle. rewrite !Hq. apply quot_le_cross; [done | done |].
  exact Hle.
Qed.

Lemma num_ge_false (a b : num) :
  num_ge a b = false → (num_Q a < num_Q b)%Q.
Proof.
  unfold num_ge, num_le. intros H. apply Qnot_le_lt. intros Hle.
  apply Qle_bool_iff in Hle. congruence.
Qed.

Lemma num_le_false (a b : num) :
  num_le a b = false → (num_Q b < num_Q a)%Q.
Proof. apply (num_ge_false b a). Qed.

(** What the constructors guarantee about the instances they return. *)
Lemma construct_invariant (cls : Datatype.class) (kwargs : gmap string cell)
    (d : Datatype.t) :
  Datatype.construct cls kwargs = Ok d →
  match d with
  | Datatype.StringType n => (0 < num_Q n)%Q
  | Datatype.IntegerType lo hi => lo ≤ hi
  | Datatype.CategoryType cats => cats ≠ [] ∧ NoDup cats
  | _ => True
  end.
Proof.
  unfold Datatype.construct. case_bool_decide as Hself; [discriminate|].
  destruct cls.
  - unfold Datatype.StringType_init. intros (n & _ & H)%bind_Ok.
    destruct (num_le _ _) eqn:E; [discriminate|]. injection H as <-.
    by apply num_le_false in E.
  - unfold Datatype.IntegerType_init.
    intros (lo & _ & (hi & _ & H)%bind_Ok)%bind_Ok.
    destruct lo as [lo|], hi as [hi|];
      cbn -[num_ge py_int py_max py_min num_add num_sub] in H;
      destruct (num_ge _ _) eqn:E; try discriminate; injection H as <-;
      match type of E with
      | num_ge ?a ?b = false =>
          apply (py_int_mono a b), Qlt_le_weak, (num_ge_false _ _ E)
      end.
  - unfold Datatype.FloatType_init.
    intros (lo & _ & (hi & _ & H)%bind_Ok)%bind_Ok.
    destruct lo as [lo|], hi as [hi|]; simpl in H; by injection H as <-.
  - intros (l & _ & Hl & ->)%CategoryType_init_inv. split.
    + by apply elements_list_to_set_nonempty.
    + apply NoDup_elements.
  - by intros [= <-].
Qed.





(** ** Generation of text and categories *)

Lemma random_choices_elems {A} (population : list A) (k : nat) (g : rng) :
  population ≠ [] →
  ∃ xs g', random_choices population k g = Ok (xs, g')
           ∧ length xs = k
           ∧ Forall (fun x => x ∈ population) xs.
Proof.
  intros Hne. revert g. induction k as [|k IH]; intros g.
  - exists [], g. by split_and!.
  - rewrite random_choices_S.
    pose proof (first_sample_range g) as [Hlo Hhi].
    assert (0 < Z.of_nat (length population)) as Hlen
      by (destruct population; [done | simpl; lia]).
    pose proof (floor_index_range _ _ Hlo Hhi Hlen) as [Hi1 Hi2].
    destruct (lookup_lt_is_Some_2 population
                (Z.to_nat (Qfloor (first_sample g
                             * inject_Z (Z.of_nat (length population))))))
      as [x Hx]; [lia|].
    rewrite Hx. destruct (IH (after_sample g)) as (xs & g2 & -> & Hk & Hxs).
    exists (x :: xs), g2. split_and!; [done | by rewrite <- Hk |].
    constructor; [by eapply list_elem_of_lookup_2 | done].
Qed.

Lemma length_string_of_list_ascii (cs : list ascii) :
  String.length (string_of_list_ascii cs) = length cs.
Proof. induction cs as [|c cs IH]; [done|]. simpl. by rewrite IH. Qed.

(** X5: a Text variant built with an int length has a positive length
    [k], and its rule never fails: for every state of the random source it
    returns a string of exactly [k] characters, each an ASCII letter or a
    digit. *)
Theorem X5_text_generation (cls : Datatype.class)
    (kwargs : gmap string cell) (k : Z) (g : rng) :
  Datatype.construct cls kwargs = Ok (Datatype.StringType (Int k)) →
  0 < k
  ∧ ∃ s g', Datatype.generator_rule (Datatype.StringType (Int k)) g
            = Ok (VStr s, g')
            ∧ String.length s = Z.to_nat k
            ∧ Forall (fun c => c ∈ Datatype.alphabet)
                (list_ascii_of_string s).
Proof.
  intros H%construct_invariant. simpl in H.
  split; [by rewrite (Zlt_Qlt 0 k)|].
  destruct (random_choices_elems Datatype.alphabet (Z.to_nat k) g)
    as (cs & g' & Hcs & Hlen & Hall); [done|].
  exists (string_of_list_ascii cs), g'. split_and!.
  - simpl. by rewrite Hcs.
  - by rewrite length_string_of_list_ascii.
  - by rewrite list_ascii_of_string_of_list_ascii.
Qed.

Lemma X5_text_generation_witness :
  0 < 10
  ∧ ∃ s g', Datatype.generator_rule (Datatype.StringType (Int 10))
              (constant_rng 5) = Ok (VStr s, g')
            ∧ String.length s = Z.to_nat 10
            ∧ Forall (fun c => c ∈ Datatype.alphabet)
                (list_ascii_of_string s).
Proof.
  apply (X5_text_generation Datatype.StringTypeC ∅). reflexivity.
Defined.

(** X6: a length given as a float passes the check of the Text
    constructor when it is positive and is stored as it is; the rule of the
    resulting variant then raises a type error for every state of the
    random source, since the number of draws must be an int. *)
Theorem X6_text_float_length (q : Q) (g : rng) :
  (0 < q)%Q →
  Datatype.StringType_init (Some (CNum (Float q)))
  = Ok (Datatype.StringType (Float q))
  ∧ Datatype.generator_rule (Datatype.StringType (Float q)) g
    = Raise TypeError.
Proof.
  intros Hq. split; [|done]. unfold Datatype.StringType_init. simpl.
  destruct (num_le (Float q) (Int 0)) eqn:E; [|done].
  apply Qle_bool_iff in E. simpl in E.
  by apply Qlt_not_le in Hq.
Qed.

Lemma X6_text_float_length_witness :
  Datatype.StringType_init (Some (CNum (Float 5)))
  = Ok (Datatype.StringType (Float 5))
  ∧ Datatype.generator_rule (Datatype.StringType (Float 5)) (constant_rng 0)
    = Raise TypeError.
Proof. apply X6_text_float_length. reflexivity. Defined.

(** X7: the Decimal constructor never raises the invalid-parameter error,
    whatever keyword arguments it receives; two numeric bounds are stored
    as they are, also when the lower one is the larger. *)
Theorem X7_float_bounds_unchecked :
  (∀ kwargs, Datatype.construct Datatype.FloatTypeC kwargs ≠ Raise ValueError)
  ∧ (∀ lo hi : num,
       Datatype.FloatType_init (Some (CNum lo)) (Some (CNum hi))
       = Ok (Datatype.FloatType lo hi)).
Proof.
  split; [|done]. intros kwargs. unfold Datatype.construct.
  case_bool_decide; [done|]. unfold Datatype.FloatType_init.
  destruct (kwargs !! "min_value") as [[| |lo| |]|];
    destruct (kwargs !! "max_value") as [[| |hi| |]|]; done.
Qed.

(** X8: a Category variant built from a non-empty list of string labels
    never fails to generate: for every state of the random source its rule
    returns one of the labels of the list. *)
Theorem X8_category_generation (l : list string) (g : rng) :
  l ≠ [] →
  ∃ d, Datatype.CategoryType_init (Some (CList l)) = Ok d
       ∧ ∃ v g', Datatype.generator_rule d g = Ok (VStr v, g') ∧ v ∈ l.
Proof.
  intros Hl. exists (Datatype.CategoryType (elements (list_to_set l : gset string))).
  split.
  - unfold Datatype.CategoryType_init. simpl.
    case_bool_decide as Hlen; [by destruct l | done].
  - pose proof (elements_list_to_set_nonempty l Hl) as Hne.
    destruct (random_choice_elem _ g Hne) as (v & Hv & Hin).
    exists v, (next_word g).2. split.
    + simpl. destruct (elements _) eqn:E; [done|]. by rewrite Hv.
    + by apply elem_of_elements, elem_of_list_to_set in Hin.
Qed.

Lemma X8_category_generation_witness :
  ∃ d, Datatype.CategoryType_init (Some (CList ["USA"; "USA"; "Canada"]))
       = Ok d
       ∧ ∃ v g', Datatype.generator_rule d (constant_rng 3) = Ok (VStr v, g')
                 ∧ v ∈ ["USA"; "USA"; "Canada"].
Proof. apply X8_category_generation. discriminate. Defined.

(** ** Construction of a column from a tag *)

Lemma lower_ascii_idemp (c : ascii) : lower_ascii (lower_ascii c) = lower_ascii c.
Proof. by destruct c as [[] [] [] [] [] [] [] []]. Qed.

Lemma lower_idemp (s : string) : lower (lower s) = lower s.
Proof.
  induction s as [|c s IH]; [done|]. simpl. by rewrite lower_ascii_idemp, IH.
Qed.

(** X9: datatype tags are case-insensitive: two tags that agree once
    lowercased give the same column, or the same error, and a tag gives
    the same result as its lowercase form. *)
Theorem X9_tag_case_insensitive (name : string) (tag tag' : string)
    (completeness : param) (generator_rule : option rule)
    (kwargs : gmap string cell) :
  (lower tag = lower tag' →
   ColumnSchema.init name (ColumnSchema.DtValue (CStr tag)) completeness
     generator_rule kwargs
   = ColumnSchema.init name (ColumnSchema.DtValue (CStr tag')) completeness
       generator_rule kwargs)
  ∧ ColumnSchema.init name (ColumnSchema.DtValue (CStr tag)) completeness
      generator_rule kwargs
    = ColumnSchema.init name (ColumnSchema.DtValue (CStr (lower tag)))
        completeness generator_rule kwargs.
Proof.
  assert (∀ t t', lower t = lower t' →
            ColumnSchema.init name (ColumnSchema.DtValue (CStr t))
              completeness generator_rule kwargs
            = ColumnSchema.init name (ColumnSchema.DtValue (CStr t'))
                completeness generator_rule kwargs) as Hsame.
  { intros t t' Heq. unfold ColumnSchema.init. by rewrite Heq. }
  split; [apply Hsame|]. apply Hsame. by rewrite lower_idemp.
Qed.

Lemma X9_tag_case_insensitive_witness :
  ColumnSchema.init "Age" (ColumnSchema.DtValue (CStr "Integer")) None None ∅
  = ColumnSchema.init "Age" (ColumnSchema.DtValue (CStr "INTEGER")) None None ∅.
Proof.
  exact (proj1 (X9_tag_case_insensitive "Age" "Integer" "INTEGER" None None ∅)
           eq_refl).
Defined.

(** X10: a tag whose lowercase form is not registered makes the
    construction of the column fail with the unknown-type error, whatever
    the other arguments are. *)
Theorem X10_unknown_tag (name tag : string) (completeness : param)
    (generator_rule : option rule) (kwargs : gmap string cell) :
  lower tag ∉ registered.*1 →
  ColumnSchema.init name (ColumnSchema.DtValue (CStr tag)) completeness
    generator_rule kwargs
  = Raise ValueError.
Proof.
  intros Hout. unfold ColumnSchema.init.
  assert (Datatype.get_class (lower tag) = Raise ValueError) as ->; [|done].
  unfold Datatype.get_class, Datatype._registry.
  rewrite !register_lookup, lookup_empty.
  unfold registered in Hout. simpl in Hout.
  repeat case_decide; try done; set_unfold; exfalso; intuition congruence.
Qed.

Lemma X10_unknown_tag_witness :
  ColumnSchema.init "When" (ColumnSchema.DtValue (CStr "Date")) None None ∅
  = Raise ValueError.
Proof.
  apply X10_unknown_tag. unfold registered. simpl.
  rewrite list_elem_of_In. simpl. intuition discriminate.
Defined.

(** X11: the column built from a tag depends on the keyword arguments only
    through the parameters of the constructor of the class: keyword
    arguments that agree on these give the same result, and a keyword that
    is no parameter of the class is dropped without an error. *)
Theorem X11_unknown_keywords_dropped (name tag : string)
    (cls : Datatype.class) (completeness : param)
    (generator_rule : option rule) (kwargs kwargs' : gmap string cell) :
  Datatype.get_class (lower tag) = Ok cls →
  ((∀ k, k ∈ Datatype.init_parameters cls → kwargs !! k = kwargs' !! k) →
   ColumnSchema.init name (ColumnSchema.DtValue (CStr tag)) completeness
     generator_rule kwargs
   = ColumnSchema.init name (ColumnSchema.DtValue (CStr tag)) completeness
       generator_rule kwargs')
  ∧ (∀ k v, k ∉ Datatype.init_parameters cls →
      ColumnSchema.init name (ColumnSchema.DtValue (CStr tag)) completeness
        generator_rule (<[k := v]> kwargs)
      = ColumnSchema.init name (ColumnSchema.DtValue (CStr tag)) completeness
          generator_rule kwargs).
Proof.
  intros Hcls.
  assert (∀ kw kw' : gmap string cell,
            (∀ k, k ∈ Datatype.init_parameters cls → kw !! k = kw' !! k) →
            ColumnSchema.init name (ColumnSchema.DtValue (CStr tag))
              completeness generator_rule kw
            = ColumnSchema.init name (ColumnSchema.DtValue (CStr tag))
                completeness generator_rule kw') as Hagree.
  { intros kw kw' Heq. unfold ColumnSchema.init. rewrite Hcls. simpl.
    do 2 f_equal. apply map_eq. intros k.
    rewrite !map_lookup_filter. simpl.
    destruct (decide (k ∈ Datatype.init_parameters cls)) as [Hk|Hk].
    - by rewrite (Heq k Hk).
    - destruct (kw !! k), (kw' !! k); simpl;
        rewrite ?option_guard_False by done; done. }
  split; [apply Hagree|].
  intros k v Hk. apply Hagree. intros k' Hk'.
  rewrite lookup_insert_ne; [done|]. by intros ->.
Qed.

Lemma X11_unknown_keywords_dropped_witness :
  ColumnSchema.init "Country" (ColumnSchema.DtValue (CStr "category")) None
    None (<["domain" := CList ["USA"]]> ∅)
  = ColumnSchema.init "Country" (ColumnSchema.DtValue (CStr "category")) None
      None ∅.
Proof.
  apply (X11_unknown_keywords_dropped "Country" "category"
           Datatype.CategoryTypeC None None ∅ ∅ eq_refl).
  simpl. rewrite list_elem_of_In. simpl. intuition discriminate.
Defined.

(** X12: a column built from a tag, or without a datatype, holds a variant
    that a constructor returned, and a column built from an instance holds
    that instance; the name and the override are stored as they were
    given. *)
Theorem X12_init_stores (name : string) (datatype : ColumnSchema.datatype_arg)
    (completeness : param) (generator_rule : option rule)
    (kwargs : gmap string cell) (col : ColumnSchema.t) :
  ColumnSchema.init name datatype completeness generator_rule kwargs = Ok col →
  ColumnSchema.name col = name
  ∧ ColumnSchema.generator_rule col = generator_rule
  ∧ match datatype with
    | ColumnSchema.DtValue _ => constructed (ColumnSchema.datatype col)
    | ColumnSchema.DtInstance d => ColumnSchema.datatype col = d
    end.
Proof.
  unfold ColumnSchema.init.
  intros (d & Hd & (c & _ & [= <-])%bind_Ok)%bind_Ok. simpl.
  split_and!; [done..|].
  destruct datatype as [[| | |tag|]|d']; try discriminate.
  - exists Datatype.StringTypeC, ∅. exact Hd.
  - apply bind_Ok in Hd as (cls & _ & Hd). by eexists _, _.
  - by injection Hd.
Qed.

Lemma X12_init_stores_witness :
  ColumnSchema.init "Age" (ColumnSchema.DtValue (CStr "int")) None None
    (<["min_value" := CNum (Int 18)]> (<["max_value" := CNum (Int 65)]> ∅))
  = Ok (ColumnSchema.mk "Age" (Datatype.IntegerType 18 65) (Float 1) None)
  ∧ constructed (Datatype.IntegerType 18 65).
Proof.
  split; [reflexivity|].
  apply (X12_init_stores "Age" (ColumnSchema.DtValue (CStr "int")) None None
           (<["min_value" := CNum (Int 18)]>
              (<["max_value" := CNum (Int 65)]> ∅))
           (ColumnSchema.mk "Age" (Datatype.IntegerType 18 65) (Float 1) None)).
  reflexivity.
Defined.

(** ** Completeness out of range, and its monotonicity *)

(** X13: for one and the same draw, lowering the completeness of a column
    can only turn a value into the null marker, never the other way round:
    if the column returns the null marker through the completeness check
    at completeness [c'], it does so at every completeness [c ≤ c']. *)
Theorem X13_completeness_monotone (col : ColumnSchema.t) (c c' : num)
    (g : rng) :
  (num_Q c <= num_Q c')%Q →
  null_path (with_completeness col c') g →
  ColumnSchema.generate (with_completeness col c) g
  = Ok (VNone, after_sample g).
Proof.
  intros Hle [Hone Hsample]. apply generate_null_path.
  split; simpl in *; eapply Qle_lt_trans; eauto.
Qed.

Lemma X13_completeness_monotone_witness :
  ColumnSchema.generate (with_completeness complete_column (Float (1 # 4)))
    (constant_rng (2 ^ 52))
  = Ok (VNone, after_sample (constant_rng (2 ^ 52))).
Proof.
  apply (X13_completeness_monotone complete_column (Float (1 # 4))
           (Float (2 # 5)) (constant_rng (2 ^ 52))).
  - by intros H.
  - by split.
Defined.

(** X14: no range check stands between a completeness outside [0,1] and
    [generate]: with a negative completeness every call returns the null
    marker, for every draw, and with a completeness of 1 or more no call
    takes the null path. *)
Theorem X14_completeness_out_of_range (col : ColumnSchema.t) (g : rng) :
  ((num_Q (ColumnSchema.completeness col) < 0)%Q →
   ColumnSchema.generate col g = Ok (VNone, after_sample g))
  ∧ ((1 <= num_Q (ColumnSchema.completeness col))%Q →
     ColumnSchema.generate col g = value_rule col (after_sample g)).
Proof.
  pose proof (first_sample_range g) as [Hlo _]. split.
  - intros Hneg. apply generate_null_path. split.
    + eapply Qlt_trans; [exact Hneg | done].
    + eapply Qlt_le_trans; [exact Hneg | exact Hlo].
  - intros Hone. apply generate_value_path. intros [Hlt _].
    by apply Qlt_not_le in Hlt.
Qed.

Lemma X14_completeness_out_of_range_witness :
  ColumnSchema.generate (with_completeness complete_column (Int (-1)))
    (constant_rng 0)
  = Ok (VNone, after_sample (constant_rng 0))
  ∧ ColumnSchema.generate (with_completeness complete_column (Int 2))
      (constant_rng 0)
    = value_rule (with_completeness complete_column (Int 2))
        (after_sample (constant_rng 0)).
Proof.
  split.
  - by apply (X14_completeness_out_of_range
                (with_completeness complete_column (Int (-1))) (constant_rng 0)).
  - apply (X14_completeness_out_of_range
             (with_completeness complete_column (Int 2)) (constant_rng 0)).
    by intros H.
Defined.

(** ** Shape of the generated table *)

Lemma generate_row_length (cols : list ColumnSchema.t) (g g' : rng)
    (vs : list value) :
  TableSchema.generate_row cols g = Ok (vs, g') → length vs = length cols.
Proof.
  revert g vs. induction cols as [|c cols IH]; intros g vs; simpl.
  - intros H. by simplify_eq.
  - intros ([v g1] & _ & ([vs' g2] & Hrest & H)%bind_Ok)%bind_Ok.
    simplify_eq. simpl. f_equal. by eapply IH.
Qed.

Lemma generate_rows_shape (n : nat) (cols : list ColumnSchema.t) (g g' : rng)
    (data : list (list value)) :
  TableSchema.generate_rows n cols g = Ok (data, g') →
  length data = n ∧ Forall (fun row => length row = length cols) data.
Proof.
  revert g data. induction n as [|n IH]; intros g data; simpl.
  - intros H. by simplify_eq.
  - intros ([row g1] & Hrow & ([data' g2] & Hrest & H)%bind_Ok)%bind_Ok.
    simplify_eq. destruct (IH _ _ Hrest) as [Hlen Hall]. split; [simpl; by f_equal|].
    constructor; [by eapply generate_row_length | done].
Qed.

Lemma generate_row_total (cols : list ColumnSchema.t) (g : rng) :
  Forall always_generates cols →
  ∃ vs g', TableSchema.generate_row cols g = Ok (vs, g').
Proof.
  intros Hall. revert g. induction Hall as [|c cols Hc _ IH]; intros g.
  - by eexists _, _.
  - destruct (Hc g) as (v & g1 & Hv). destruct (IH g1) as (vs & g2 & Hvs).
    exists (v :: vs), g2. simpl. rewrite Hv. simpl. by rewrite Hvs.
Qed.

Lemma generate_rows_total (n : nat) (cols : list ColumnSchema.t) (g : rng) :
  Forall always_generates cols →
  ∃ data g', TableSchema.generate_rows n cols g = Ok (data, g').
Proof.
  intros Hall. revert g. induction n as [|n IH]; intros g.
  - by eexists _, _.
  - destruct (generate_row_total cols g Hall) as (row & g1 & Hrow).
    destruct (IH g1) as (data & g2 & Hdata).
    exists (row :: data), g2. simpl. rewrite Hrow. simpl. by rewrite Hdata.
Qed.

Lemma contents_present (self : loc) (σ : gmap loc object)
    (items : list ColumnSchema.t) :
  contents self σ = Ok (Some items)
  ↔ ∃ l, σ !! self = Some (TableSchemaObj (Some l))
         ∧ σ !! l = Some (ListObj items).
Proof.
  unfold contents, TableSchema.get_columns, TableSchema.get_items. split.
  - destruct (σ !! self) as [[|[l|]]|]; try discriminate. simpl.
    destruct (σ !! l) as [[items'|]|] eqn:El; try discriminate.
    intros [= <-]. by exists l.
  - intros (l & -> & Hl). simpl. by rewrite Hl.
Qed.

Lemma contents_absent (self : loc) (σ : gmap loc object) :
  contents self σ = Ok None ↔ σ !! self = Some (TableSchemaObj None).
Proof.
  unfold contents, TableSchema.get_columns, TableSchema.get_items. split.
  - destruct (σ !! self) as [[|[l|]]|]; try discriminate; [|done]. simpl.
    by destruct (σ !! l) as [[|]|].
  - by intros ->.
Qed.

(** X15: on a schema whose columns are [cols], whenever [generate]
    returns a table, its labels are the names of the columns in schema
    order, it has exactly [num_rows] records (none for a negative
    [num_rows]), and every record has one field per column; and it does
    return a table when each column always generates. *)
Theorem X15_generate_shape (self : loc) (cols : list ColumnSchema.t)
    (num_rows : Z) (σ : gmap loc object) (g : rng) :
  contents self σ = Ok (Some cols) →
  (∀ table g', TableSchema.generate self num_rows σ g = Ok (table, g') →
     df_columns table = ColumnSchema.name <$> cols
     ∧ length (df_data table) = Z.to_nat num_rows
     ∧ Forall (fun row => length row = length cols) (df_data table))
  ∧ (Forall always_generates cols →
     ∃ table g', TableSchema.generate self num_rows σ g = Ok (table, g')).
Proof.
  intros (l & Hself & Hl)%contents_present.
  rewrite (generate_present self l cols) by done. split.
  - intros table g' ([data g1] & Hrows & H)%bind_Ok. simplify_eq. simpl.
    destruct (generate_rows_shape _ _ _ _ _ Hrows). by split_and!.
  - intros Hall.
    destruct (generate_rows_total (Z.to_nat num_rows) cols g Hall)
      as (data & g' & ->).
    by eexists _, _.
Qed.

Lemma X15_generate_shape_witness :
  contents 2%positive abc_store
  = Ok (Some [text_column "a"; text_column "b"; text_column "c"])
  ∧ ∃ table g',
      TableSchema.generate 2%positive 5 abc_store (constant_rng 1)
      = Ok (table, g').
Proof.
  split; [reflexivity|].
  apply (X15_generate_shape 2%positive
           [text_column "a"; text_column "b"; text_column "c"] 5 abc_store
           (constant_rng 1) eq_refl).
  repeat constructor; intros g; by apply (generate_text_total _ 10).
Defined.

(** X16: for a [num_rows] of zero or less, [generate] returns the labels
    and no record, without a draw and whatever the columns are, also when
    one of them could not generate a value. *)
Theorem X16_generate_no_rows (self : loc) (cols : list ColumnSchema.t)
    (num_rows : Z) (σ : gmap loc object) (g : rng) :
  contents self σ = Ok (Some cols) →
  num_rows ≤ 0 →
  TableSchema.generate self num_rows σ g
  = Ok (mk_DataFrame (ColumnSchema.name <$> cols) [], g).
Proof.
  intros (l & Hself & Hl)%contents_present Hn.
  rewrite (generate_present self l cols) by done.
  replace (Z.to_nat num_rows) with 0%nat by lia. reflexivity.
Qed.

Lemma X16_generate_no_rows_witness :
  TableSchema.generate 2%positive (-3) float_text_store (constant_rng 0)
  = Ok (mk_DataFrame ["t"] [], constant_rng 0).
Proof.
  apply (X16_generate_no_rows 2%positive [float_text_column] (-3)
           float_text_store (constant_rng 0)); [reflexivity | lia].
Defined.

(** ** [add_column] and [remove_column] *)

Lemma schema_is_not_its_list (self l : loc) (σ : gmap loc object)
    (columns : option loc) (items : list ColumnSchema.t) :
  σ !! self = Some (TableSchemaObj columns) →
  σ !! l = Some (ListObj items) →
  self ≠ l.
Proof. intros Hself Hl ->. congruence. Qed.

Lemma add_column_present (self l : loc) (items : list ColumnSchema.t)
    (c : ColumnSchema.t) (σ : gmap loc object) :
  σ !! self = Some (TableSchemaObj (Some l)) →
  σ !! l = Some (ListObj items) →
  TableSchema.add_column self (inl c) σ
  = Ok (<[l := ListObj (items ++ [c])]> σ).
Proof.
  intros Hself Hl.
  unfold TableSchema.add_column, TableSchema.get_columns,
    TableSchema.get_items.
  simpl. rewrite Hself. simpl. by rewrite Hl.
Qed.

Lemma add_column_absent (self : loc) (c : ColumnSchema.t)
    (σ : gmap loc object) :
  σ !! self = Some (TableSchemaObj None) →
  ∃ l, σ !! l = None
       ∧ TableSchema.add_column self (inl c) σ
         = Ok (<[l := ListObj [c]]>
                 (<[self := TableSchemaObj (Some l)]>
                    (<[l := ListObj []]> σ))).
Proof.
  intros Hself. exists (alloc (ListObj []) σ).1.
  split; [apply alloc_fresh|].
  assert (self ≠ (alloc (ListObj []) σ).1) as Hne.
  { intros Heq. pose proof (alloc_fresh (ListObj []) σ) as Hf.
    rewrite <- Heq in Hf. congruence. }
  unfold TableSchema.add_column, TableSchema.get_columns,
    TableSchema.get_items.
  simpl. rewrite Hself. simpl.
  change (fresh (dom σ)) with (alloc (ListObj []) σ).1.
  rewrite lookup_insert_ne by done. by rewrite lookup_insert_eq.
Qed.

(** X17: [add_column] appends: on a schema with columns the new column
    comes last, after the columns that were there, in their order; on a
    schema without column list it becomes the only column; and a bare name
    stands for the default text column of that name. *)
Theorem X17_add_column_appends (self : loc) (c : ColumnSchema.t)
    (name : string) (σ : gmap loc object) :
  (∀ items, contents self σ = Ok (Some items) →
     ∃ σ', TableSchema.add_column self (inl c) σ = Ok σ'
           ∧ contents self σ' = Ok (Some (items ++ [c])))
  ∧ (contents self σ = Ok None →
     ∃ σ', TableSchema.add_column self (inl c) σ = Ok σ'
           ∧ contents self σ' = Ok (Some [c]))
  ∧ TableSchema.add_column self (inr name) σ
    = TableSchema.add_column self (inl (text_column name)) σ.
Proof.
  split_and!; [| |done].
  - intros items (l & Hself & Hl)%contents_present.
    pose proof (schema_is_not_its_list _ _ _ _ _ Hself Hl) as Hne.
    eexists. split; [by apply add_column_present|].
    apply contents_present. exists l.
    by rewrite lookup_insert_ne, lookup_insert_eq.
  - intros Hself%contents_absent.
    destruct (add_column_absent self c σ Hself) as (l & Hl & ->).
    assert (self ≠ l) as Hne by (intros ->; congruence).
    eexists. split; [done|]. apply contents_present. exists l.
    rewrite lookup_insert_ne, lookup_insert_eq, lookup_insert_eq by done.
    done.
Qed.

Lemma X17_add_column_appends_witness :
  ∃ σ', TableSchema.add_column 2%positive (inl (text_column "d")) abc_store
        = Ok σ'
        ∧ contents 2%positive σ'
          = Ok (Some ([text_column "a"; text_column "b"; text_column "c"]
                      ++ [text_column "d"])).
Proof.
  apply (proj1 (X17_add_column_appends 2%positive (text_column "d") "d"
                  abc_store)).
  reflexivity.
Defined.

(** X18: two schemas built over one list share it.  A column added through
    one of them is seen through the other, since [append] updates the list
    itself; a column removed through one of them stays in the other, since
    [remove_column] binds its schema to a new list. *)
Theorem X18_shared_list (t1 t2 l : loc) (items : list ColumnSchema.t)
    (c : ColumnSchema.t) (column_name : string) (σ : gmap loc object) :
  σ !! t1 = Some (TableSchemaObj (Some l)) →
  σ !! t2 = Some (TableSchemaObj (Some l)) →
  σ !! l = Some (ListObj items) →
  t1 ≠ t2 →
  (∃ σ', TableSchema.add_column t1 (inl c) σ = Ok σ'
         ∧ contents t1 σ' = Ok (Some (items ++ [c]))
         ∧ contents t2 σ' = Ok (Some (items ++ [c])))
  ∧ (∃ σ', TableSchema.remove_column t1 column_name σ = Ok σ'
           ∧ contents t1 σ'
             = Ok (Some (filter (fun col => ColumnSchema.name col ≠ column_name)
                           items))
           ∧ contents t2 σ' = Ok (Some items)).
Proof.
  intros H1 H2 Hl Hne.
  pose proof (schema_is_not_its_list _ _ _ _ _ H1 Hl) as Hne1.
  pose proof (schema_is_not_its_list _ _ _ _ _ H2 Hl) as Hne2.
  split.
  - eexists. split; [by apply add_column_present|].
    split; apply contents_present; exists l;
      by rewrite lookup_insert_ne, lookup_insert_eq.
  - destruct (remove_column_present t1 l items column_name σ H1 Hl)
      as (l' & σ' & Hcall & Hfresh & Hself' & Hl').
    exists σ'. split_and!; [done | apply contents_present; by exists l' |].
    apply contents_present. exists l.
    unfold TableSchema.remove_column, TableSchema.get_columns,
      TableSchema.get_items in Hcall.
    rewrite H1 in Hcall. simpl in Hcall. rewrite Hl in Hcall.
    simpl in Hcall. injection Hcall as <-.
    assert (fresh (dom σ) ≠ t2 ∧ fresh (dom σ) ≠ l) as [Hf2 Hfl].
    { pose proof (alloc_fresh (ListObj []) σ) as Hf. unfold alloc in Hf.
      simpl in Hf. split; intros Heq; rewrite Heq in Hf; congruence. }
    rewrite !lookup_insert_ne by done. done.
Qed.

Lemma X18_shared_list_witness :
  ∃ σ', TableSchema.remove_column 2%positive "b"
          (<[3%positive := TableSchemaObj (Some 1%positive)]> abc_store)
        = Ok σ'
        ∧ contents 2%positive σ'
          = Ok (Some [text_column "a"; text_column "c"])
        ∧ contents 3%positive σ'
          = Ok (Some [text_column "a"; text_column "b"; text_column "c"]).
Proof.
  apply (X18_shared_list 2%positive 3%positive 1%positive
           [text_column "a"; text_column "b"; text_column "c"]
           (text_column "d") "b"
           (<[3%positive := TableSchemaObj (Some 1%positive)]> abc_store));
    done.
Defined.

(** X19: [remove_column] removes every column of the given name, also
    when several columns bear it, and keeps the other columns in their
    order; it changes nothing on a schema without column list; and removing
    the same name once more changes nothing further. *)
Theorem X19_remove_column (self : loc) (column_name : string)
    (σ : gmap loc object) :
  (∀ items, contents self σ = Ok (Some items) →
     ∃ σ' remaining,
       TableSchema.remove_column self column_name σ = Ok σ'
       ∧ contents self σ' = Ok (Some remaining)
       ∧ remaining = filter (fun col => ColumnSchema.name col ≠ column_name)
                       items
       ∧ Forall (fun col => ColumnSchema.name col ≠ column_name) remaining
       ∧ remaining `sublist_of` items
       ∧ (∀ col, col ∈ items → ColumnSchema.name col ≠ column_name →
                 col ∈ remaining)
       ∧ ∃ σ'', TableSchema.remove_column self column_name σ' = Ok σ''
                ∧ contents self σ'' = Ok (Some remaining))
  ∧ (contents self σ = Ok None →
     TableSchema.remove_column self column_name σ = Ok σ).
Proof.
  split.
  - intros items (l & Hself & Hl)%contents_present.
    destruct (remove_column_present self l items column_name σ Hself Hl)
      as (l' & σ' & Hcall & _ & Hself' & Hl').
    destruct (remove_column_present self l' _ column_name σ' Hself' Hl')
      as (l'' & σ'' & Hcall' & _ & Hself'' & Hl'').
    exists σ', (filter (fun col => ColumnSchema.name col ≠ column_name) items).
    split_and!; [done | apply contents_present; by exists l' | done | | | |].
    + apply Forall_forall. by intros col [? _]%list_elem_of_filter.
    + apply sublist_filter.
    + intros col Hin Hname. by apply list_elem_of_filter.
    + exists σ''. split; [done|]. apply contents_present. exists l''.
      split; [done|]. rewrite Hl''. do 2 f_equal.
      rewrite list_filter_filter. apply list_filter_iff. tauto.
  - intros Hself%contents_absent.
    unfold TableSchema.remove_column, TableSchema.get_columns.
    by rewrite Hself.
Qed.

Lemma X19_remove_column_witness :
  ∃ σ' remaining,
    TableSchema.remove_column 2%positive "b" abc_store = Ok σ'
    ∧ contents 2%positive σ' = Ok (Some remaining)
    ∧ remaining = [text_column "a"; text_column "c"].
Proof.
  destruct (proj1 (X19_remove_column 2%positive "b" abc_store)
              [text_column "a"; text_column "b"; text_column "c"] eq_refl)
    as (σ' & remaining & H1 & H2 & H3 & _).
  by exists σ', remaining.
Defined.

(** X20: adding a column whose name no column of the schema bears, and
    then removing that name, gives back the columns the schema had. *)
Theorem X20_add_then_remove (self : loc) (items : list ColumnSchema.t)
    (c : ColumnSchema.t) (σ : gmap loc object) :
  contents self σ = Ok (Some items) →
  Forall (fun col => ColumnSchema.name col ≠ ColumnSchema.name c) items →
  ∃ σ1 σ2,
    TableSchema.add_column self (inl c) σ = Ok σ1
    ∧ TableSchema.remove_column self (ColumnSchema.name c) σ1 = Ok σ2
    ∧ contents self σ2 = Ok (Some items).
Proof.
  intros (l & Hself & Hl)%contents_present Hnew.
  pose proof (schema_is_not_its_list _ _ _ _ _ Hself Hl) as Hne.
  set (σ1 := <[l := ListObj (items ++ [c])]> σ).
  assert (σ1 !! self = Some (TableSchemaObj (Some l))) as Hself1
    by (unfold σ1; by rewrite lookup_insert_ne).
  assert (σ1 !! l = Some (ListObj (items ++ [c]))) as Hl1
    by apply lookup_insert_eq.
  destruct (remove_column_present self l _ (ColumnSchema.name c) σ1 Hself1 Hl1)
    as (l' & σ2 & Hcall & _ & Hself2 & Hl2).
  exists σ1, σ2. split_and!; [by apply add_column_present | done |].
  apply contents_present. exists l'. split; [done|]. rewrite Hl2.
  do 2 f_equal. rewrite filter_app, filter_cons, decide_False by tauto.
  rewrite filter_nil, app_nil_r.
  clear -Hnew. induction Hnew as [|col items Hcol _ IH]; [done|].
  by rewrite filter_cons, decide_True, IH.
Qed.

Lemma X20_add_then_remove_witness :
  ∃ σ1 σ2,
    TableSchema.add_column 2%positive (inl (text_column "d")) abc_store
    = Ok σ1
    ∧ TableSchema.remove_column 2%positive "d" σ1 = Ok σ2
    ∧ contents 2%positive σ2
      = Ok (Some [text_column "a"; text_column "b"; text_column "c"]).
Proof.
  apply (X20_add_then_remove 2%positive
           [text_column "a"; text_column "b"; text_column "c"]
           (text_column "d") abc_store eq_refl).
  repeat constructor; discriminate.
Defined.

(** ** Composition of [select_columns] *)

Lemma select_columns_contents (self : loc) (items : list ColumnSchema.t)
    (names : list string) (σ : gmap loc object) :
  contents self σ = Ok (Some items) →
  ∃ new σ',
    TableSchema.select_columns self names σ = Ok (new, σ')
    ∧ contents new σ'
      = Ok (Some (filter (fun col => ColumnSchema.name col ∈ names) items))
    ∧ contents self σ' = Ok (Some items).
Proof.
  intros (l & Hself & Hl)%contents_present.
  destruct (select_columns_present self l items names σ Hself Hl)
    as (new & cols & σ' & Hcall & _ & _ & Hnew & Hcols & Hold).
  exists new, σ'. split_and!; [done | |]; apply contents_present.
  - by exists cols.
  - exists l. split; by apply Hold.
Qed.

(** X21: the schema that [select_columns] returns depends on the names
    only as a set: the order of the names and their repetitions do not
    matter, the selected columns always come in the receiver's order; and a
    table generated from it bears the receiver's labels that are among the
    names, in the receiver's order. *)
Theorem X21_select_by_name_set (self : loc) (items : list ColumnSchema.t)
    (names names' : list string) (σ : gmap loc object) :
  contents self σ = Ok (Some items) →
  (∀ n, n ∈ names ↔ n ∈ names') →
  ∃ new σ1 new' σ2 selected,
    TableSchema.select_columns self names σ = Ok (new, σ1)
    ∧ TableSchema.select_columns self names' σ = Ok (new', σ2)
    ∧ contents new σ1 = Ok (Some selected)
    ∧ contents new' σ2 = Ok (Some selected)
    ∧ ∀ num_rows g table g',
        TableSchema.generate new num_rows σ1 g = Ok (table, g') →
        df_columns table
        = filter (fun n => n ∈ names) (ColumnSchema.name <$> items).
Proof.
  intros Hself Hsame.
  destruct (select_columns_contents self items names σ Hself)
    as (new & σ1 & Hcall & Hnew & _).
  destruct (select_columns_contents self items names' σ Hself)
    as (new' & σ2 & Hcall' & Hnew' & _).
  exists new, σ1, new', σ2. eexists.
  split_and!; [done | done | done | |].
  - rewrite Hnew'. do 2 f_equal. apply list_filter_iff.
    intros col. symmetry. apply Hsame.
  - intros num_rows g table g' Hgen.
    apply contents_present in Hnew as (l & Hl1 & Hl2).
    rewrite (generate_present new l _ num_rows σ1 g Hl1 Hl2) in Hgen.
    apply bind_Ok in Hgen as ([data g1] & _ & Hgen). simplify_eq. simpl.
    clear. induction items as [|col items IH]; [done|].
    rewrite fmap_cons, !filter_cons. simpl.
    destruct (decide (ColumnSchema.name col ∈ names)); by rewrite ?fmap_cons, IH.
Qed.

Lemma X21_select_by_name_set_witness :
  ∃ new σ1 new' σ2 selected,
    TableSchema.select_columns 2%positive ["c"; "a"] abc_store = Ok (new, σ1)
    ∧ TableSchema.select_columns 2%positive ["a"; "c"; "a"] abc_store
      = Ok (new', σ2)
    ∧ contents new σ1 = Ok (Some selected)
    ∧ contents new' σ2 = Ok (Some selected)
    ∧ ∀ num_rows g table g',
        TableSchema.generate new num_rows σ1 g = Ok (table, g') →
        df_columns table
        = filter (fun n => n ∈ ["c"; "a"])
            (ColumnSchema.name
               <$> [text_column "a"; text_column "b"; text_column "c"]).
Proof.
  apply (X21_select_by_name_set 2%positive
           [text_column "a"; text_column "b"; text_column "c"]
           ["c"; "a"] ["a"; "c"; "a"] abc_store eq_refl).
  intros n. rewrite !list_elem_of_In. simpl. tauto.
Defined.

(** X22: selecting twice is selecting the columns whose name is in both
    lists of names, so that two selections commute; the receiver keeps its
    columns throughout. *)
Theorem X22_select_twice (self : loc) (items : list ColumnSchema.t)
    (names1 names2 : list string) (σ : gmap loc object) :
  contents self σ = Ok (Some items) →
  ∃ new1 σ1 new2 σ2,
    TableSchema.select_columns self names1 σ = Ok (new1, σ1)
    ∧ TableSchema.select_columns new1 names2 σ1 = Ok (new2, σ2)
    ∧ contents new2 σ2
      = Ok (Some (filter (fun col => ColumnSchema.name col ∈ names1
                                     ∧ ColumnSchema.name col ∈ names2)
                    items))
    ∧ contents self σ2 = Ok (Some items).
Proof.
  intros Hself.
  destruct (select_columns_contents self items names1 σ Hself)
    as (new1 & σ1 & Hcall1 & Hnew1 & Hself1).
  destruct (select_columns_contents new1 _ names2 σ1 Hnew1)
    as (new2 & σ2 & Hcall2 & Hnew2 & _).
  exists new1, σ1, new2, σ2. split_and!; [done | done | |].
  - rewrite Hnew2. do 2 f_equal. rewrite list_filter_filter.
    apply list_filter_iff. tauto.
  - apply contents_present in Hself1 as (l & Hs & Hl).
    apply contents_present in Hnew1 as (l1 & Hs1 & Hl1).
    destruct (select_columns_present new1 l1 _ names2 σ1 Hs1 Hl1)
      as (new2' & cols & σ2' & Hcall2' & _ & _ & _ & _ & Hold).
    rewrite Hcall2 in Hcall2'. simplify_eq.
    apply contents_present. exists l. split; by apply Hold.
Qed.

Lemma X22_select_twice_witness :
  ∃ new1 σ1 new2 σ2,
    TableSchema.select_columns 2%positive ["a"; "b"] abc_store = Ok (new1, σ1)
    ∧ TableSchema.select_columns new1 ["b"; "c"] σ1 = Ok (new2, σ2)
    ∧ contents new2 σ2
      = Ok (Some (filter (fun col => ColumnSchema.name col ∈ ["a"; "b"]
                                     ∧ ColumnSchema.name col ∈ ["b"; "c"])
                    [text_column "a"; text_column "b"; text_column "c"]))
    ∧ contents 2%positive σ2
      = Ok (Some [text_column "a"; text_column "b"; text_column "c"]).
Proof.
  apply (X22_select_twice 2%positive
           [text_column "a"; text_column "b"; text_column "c"]
           ["a"; "b"] ["b"; "c"] abc_store).
  reflexivity.
Defined.

(** ** [from_dataframe] *)

Lemma from_dataframe_unfold (df : frame) (σ : gmap loc object) :
  TableSchema.from_dataframe df σ
  = (σ' ← foldl (from_dataframe_step (labels df) (alloc (ListObj []) σ).1)
            (Ok (alloc (ListObj []) σ).2) (rows df);
     TableSchema.init (Some (alloc (ListObj []) σ).1) σ').
Proof. reflexivity. Qed.

Lemma from_dataframe_loop_raise (labels : list string) (columns : loc)
    (rows : list (list cell)) (e : exn) :
  foldl (from_dataframe_step labels columns) (Raise e) rows = Raise e.
Proof. induction rows as [|r rows IH]; [done|]. exact IH. Qed.

Lemma from_dataframe_loop_ok (labels : list string) (columns : loc)
    (rows : list (list cell)) (cols acc : list ColumnSchema.t)
    (σ : gmap loc object) :
  rows_give labels rows cols →
  foldl (from_dataframe_step labels columns)
    (Ok (<[columns := ListObj acc]> σ)) rows
  = Ok (<[columns := ListObj (acc ++ cols)]> σ).
Proof.
  intros Hrows. revert acc.
  induction Hrows as [|r col rows cols Hcol _ IH]; intros acc.
  - by rewrite app_nil_r.
  - cbn [foldl]. unfold from_dataframe_step at 2. simpl. rewrite Hcol. simpl.
    unfold TableSchema.get_items. rewrite lookup_insert_eq. simpl.
    rewrite insert_insert_eq, IH. by rewrite <- app_assoc.
Qed.

Lemma from_dataframe_loop_fails (labels : list string) (columns : loc)
    (before after : list (list cell)) (r : list cell) (e : exn)
    (cols acc : list ColumnSchema.t) (σ : gmap loc object) :
  rows_give labels before cols →
  TableSchema.column_of_row (zip labels r) = Raise e →
  foldl (from_dataframe_step labels columns)
    (Ok (<[columns := ListObj acc]> σ)) (before ++ r :: after)
  = Raise e.
Proof.
  intros Hbefore Hr. rewrite foldl_app.
  rewrite (from_dataframe_loop_ok _ _ _ _ _ _ Hbefore). cbn [foldl].
  unfold from_dataframe_step at 2. simpl. rewrite Hr. simpl.
  apply from_dataframe_loop_raise.
Qed.

(** Every list of rows either converts as a whole or has a first row
    that fails. *)
Lemma rows_give_or_fail (labels : list string) (rows : list (list cell)) :
  (∃ cols, rows_give labels rows cols)
  ∨ (∃ before r after cols e,
       rows = before ++ r :: after
       ∧ rows_give labels before cols
       ∧ TableSchema.column_of_row (zip labels r) = Raise e).
Proof.
  induction rows as [|r rows IH]; [left; exists []; constructor|].
  destruct (TableSchema.column_of_row (zip labels r)) as [col|e] eqn:Hr.
  - destruct IH as [(cols & Hcols)|(before & r' & after & cols & e & -> & Hb & He)].
    + left. exists (col :: cols). by constructor.
    + right. exists (r :: before), r', after, (col :: cols), e.
      split_and!; [done | by constructor | done].
  - right. exists [], r, rows, [], e. split_and!; [done | constructor | done].
Qed.

Lemma from_dataframe_ok (df : frame) (cols : list ColumnSchema.t)
    (σ : gmap loc object) :
  rows_give (labels df) (rows df) cols →
  ∃ t σ', TableSchema.from_dataframe df σ = Ok (t, σ')
          ∧ contents t σ' = Ok (Some cols)
          ∧ σ !! t = None
          ∧ ∀ l o, σ !! l = Some o → σ' !! l = Some o.
Proof.
  intros Hrows. rewrite from_dataframe_unfold.
  set (l := (alloc (ListObj []) σ).1).
  change (alloc (ListObj []) σ).2 with (<[l := ListObj []]> σ).
  rewrite (from_dataframe_loop_ok _ _ _ _ _ _ Hrows). simpl.
  unfold TableSchema.init.
  set (σ1 := <[l := ListObj cols]> σ).
  set (o := TableSchemaObj (Some l)).
  assert (σ !! l = None) as Hl by apply alloc_fresh.
  assert (σ1 !! l = Some (ListObj cols)) as Hl1 by apply lookup_insert_eq.
  pose proof (alloc_fresh o σ1) as Hfresh.
  pose proof (alloc_lookup o σ1) as Hnew.
  pose proof (fun l0 o' => alloc_preserves o o' σ1 l0) as Hkeep.
  destruct (alloc o σ1) as [t σ'] eqn:Halloc. simpl in *.
  exists t, σ'. split_and!; [done | | |].
  - apply contents_present. exists l. split; [done | by apply Hkeep].
  - destruct (σ !! t) as [o'|] eqn:Ht; [|done].
    assert (σ1 !! t = Some o') as Ht1; [|congruence].
    unfold σ1. rewrite lookup_insert_ne; [done|]. intros ->. congruence.
  - intros l0 o' Hl0. apply Hkeep. unfold σ1.
    rewrite lookup_insert_ne; [done|]. intros ->. congruence.
Qed.

Lemma from_dataframe_fails (df : frame) (before after : list (list cell))
    (r : list cell) (cols : list ColumnSchema.t) (e : exn)
    (σ : gmap loc object) :
  rows df = before ++ r :: after →
  rows_give (labels df) before cols →
  TableSchema.column_of_row (zip (labels df) r) = Raise e →
  TableSchema.from_dataframe df σ = Raise e.
Proof.
  intros Hrows Hbefore Hr. rewrite from_dataframe_unfold, Hrows.
  change (alloc (ListObj []) σ).2
    with (<[(alloc (ListObj []) σ).1 := ListObj []]> σ).
  by rewrite (from_dataframe_loop_fails _ _ _ _ _ _ _ _ _ Hbefore Hr).
Qed.

(** X23: [from_dataframe] builds one column per row, in the order of the
    rows, each from its own row alone, in a new schema over a new list,
    and leaves the objects that existed as they were; it succeeds exactly
    when every row gives a column, and otherwise raises the error of the
    first row that does not, without a partial schema. *)
Theorem X23_from_dataframe_rows (df : frame) (σ : gmap loc object) :
  (∀ cols, rows_give (labels df) (rows df) cols →
     ∃ t σ', TableSchema.from_dataframe df σ = Ok (t, σ')
             ∧ contents t σ' = Ok (Some cols)
             ∧ σ !! t = None
             ∧ ∀ l o, σ !! l = Some o → σ' !! l = Some o)
  ∧ (∀ t σ', TableSchema.from_dataframe df σ = Ok (t, σ') →
       ∃ cols, rows_give (labels df) (rows df) cols
               ∧ contents t σ' = Ok (Some cols))
  ∧ (∀ before r after cols e,
       rows df = before ++ r :: after →
       rows_give (labels df) before cols →
       TableSchema.column_of_row (zip (labels df) r) = Raise e →
       TableSchema.from_dataframe df σ = Raise e).
Proof.
  split_and!.
  - intros cols. apply from_dataframe_ok.
  - intros t σ' Hcall.
    destruct (rows_give_or_fail (labels df) (rows df))
      as [(cols & Hcols)|(before & r & after & cols & e & Hrows & Hb & He)].
    + destruct (from_dataframe_ok df cols σ Hcols) as (t' & σ'' & Hcall' & Hc & _).
      rewrite Hcall in Hcall'. simplify_eq. by exists cols.
    + rewrite (from_dataframe_fails df _ _ _ _ _ σ Hrows Hb He) in Hcall.
      discriminate.
  - intros before r after cols e. apply from_dataframe_fails.
Qed.

Lemma X23_from_dataframe_rows_witness :
  ∃ t σ', TableSchema.from_dataframe (age_email_frame false) ∅ = Ok (t, σ')
          ∧ contents t σ' = Ok (Some [age_column false; email_column])
          ∧ (∅ : gmap loc object) !! t = None
          ∧ ∀ l o, (∅ : gmap loc object) !! l = Some o → σ' !! l = Some o.
Proof.
  apply (proj1 (X23_from_dataframe_rows (age_email_frame false) ∅)).
  repeat constructor.
Defined.

(** X24: a frame without rows, whatever its labels, gives a schema whose
    column list is present and empty, not absent: [generate] on it raises
    no error and returns records without fields. *)
Theorem X24_frame_without_rows (labels : list string) (σ : gmap loc object)
    (num_rows : Z) (g : rng) :
  ∃ t σ', TableSchema.from_dataframe (mk_frame labels []) σ = Ok (t, σ')
          ∧ contents t σ' = Ok (Some [])
          ∧ TableSchema.generate t num_rows σ' g
            = Ok (mk_DataFrame [] (replicate (Z.to_nat num_rows) []), g).
Proof.
  destruct (from_dataframe_ok (mk_frame labels []) [] σ)
    as (t & σ' & Hcall & Hcontents & _); [constructor|].
  exists t, σ'. split_and!; [done..|].
  apply contents_present in Hcontents as (l & Hself & Hl).
  by apply generate_empty_list with (l := l).
Qed.

(** *** The dictionary of a row *)

Lemma row_dict_from_lookup (items : list (string * cell))
    (acc row : gmap string cell) (k : string) :
  TableSchema.row_dict_from acc items = Ok row →
  k ∉ items.*1 →
  row !! k = acc !! k.
Proof.
  revert acc. induction items as [|[k' v] items IH]; intros acc; simpl.
  - by intros [= <-].
  - intros (v' & _ & Hrest)%bind_Ok Hk.
    apply not_elem_of_cons in Hk as [Hne Hk].
    rewrite (IH _ Hrest Hk). by rewrite lookup_insert_ne.
Qed.

Lemma row_dict_from_error (items : list (string * cell))
    (acc : gmap string cell) (e : exn) :
  TableSchema.row_dict_from acc items = Raise e → e = ValueError.
Proof.
  revert acc. induction items as [|[k v] items IH]; intros acc; simpl.
  - discriminate.
  - destruct (notna_or_None v) as [v'|e'] eqn:Hv; simpl.
    + apply IH.
    + intros [= <-]. destruct v as [| | | |[|? [|??]]]; simpl in Hv; congruence.
Qed.

Lemma row_dict_from_scalar (items : list (string * cell))
    (acc : gmap string cell) :
  Forall (fun c => ∀ l, c ≠ CList l) items.*2 →
  ∃ row, TableSchema.row_dict_from acc items = Ok row.
Proof.
  revert acc. induction items as [|[k v] items IH]; intros acc Hall; simpl.
  - by eexists.
  - apply Forall_cons in Hall as [Hv Hall].
    destruct v as [| | | |l]; simpl; try by apply IH.
    by destruct (Hv l).
Qed.

Lemma zip_fst_elem_of {A B} (l : list A) (k : list B) (x : A) :
  x ∈ (zip l k).*1 → x ∈ l.
Proof.
  revert k. induction l as [|a l IH]; intros [|b k]; simpl;
    try by intros ?%not_elem_of_nil.
  intros [->|Hin]%elem_of_cons; [by left | right; by eapply IH].
Qed.

Lemma zip_snd_Forall {A B} (P : B → Prop) (l : list A) (k : list B) :
  Forall P k → Forall P (zip l k).*2.
Proof.
  intros Hk. revert l. induction Hk as [|b k Hb _ IH]; intros [|a l]; simpl;
    try constructor; auto.
Qed.

Lemma column_of_row_missing_key (items : list (string * cell))
    (row : gmap string cell) (key : string) :
  TableSchema.row_dict items = Ok row →
  key ∈ config_labels →
  row !! key = None →
  TableSchema.column_of_row items = Raise KeyError.
Proof.
  intros Hrow Hkey Hnone. unfold TableSchema.column_of_row.
  rewrite Hrow. simpl. unfold TableSchema.getitem.
  repeat (match goal with
          | |- context [row !! ?k] =>
              destruct (row !! k) eqn:?; simpl; [|done]
          end).
  exfalso. unfold config_labels in Hkey. set_unfold.
  intuition (subst; congruence).
Qed.

(** X25: the factory needs every one of the seven labels name, datatype,
    length, domain, max, min and completeness: on a frame that has a row
    and lacks one of them, [from_dataframe] raises, with a key error when
    no cell of the first row is a list, and with a key error or the value
    error of the normalisation otherwise. *)
Theorem X25_missing_label (df : frame) (key : string) (r : list cell)
    (rest : list (list cell)) (σ : gmap loc object) :
  key ∈ config_labels →
  key ∉ labels df →
  rows df = r :: rest →
  (TableSchema.from_dataframe df σ = Raise KeyError
   ∨ TableSchema.from_dataframe df σ = Raise ValueError)
  ∧ (Forall (fun c => ∀ l, c ≠ CList l) r →
     TableSchema.from_dataframe df σ = Raise KeyError).
Proof.
  intros Hkey Hout Hrows.
  assert (∀ row, TableSchema.row_dict (zip (labels df) r) = Ok row →
                 TableSchema.from_dataframe df σ = Raise KeyError) as Hok.
  { intros row Hrow.
    apply (from_dataframe_fails df [] rest r [] KeyError σ Hrows);
      [constructor|].
    apply (column_of_row_missing_key _ row key Hrow Hkey).
    rewrite (row_dict_from_lookup _ ∅ row key Hrow); [done|].
    by intros ?%zip_fst_elem_of. }
  split.
  - destruct (TableSchema.row_dict (zip (labels df) r)) as [row|e] eqn:Hrow.
    + left. by eapply Hok.
    + right. pose proof (row_dict_from_error _ _ _ Hrow) as ->.
      apply (from_dataframe_fails df [] rest r [] ValueError σ Hrows);
        [constructor|].
      unfold TableSchema.column_of_row. by rewrite Hrow.
  - intros Hscalar.
    destruct (row_dict_from_scalar (zip (labels df) r) ∅) as [row Hrow];
      [by apply zip_snd_Forall|].
    by eapply Hok.
Qed.

Lemma X25_missing_label_witness :
  TableSchema.from_dataframe
    (mk_frame ["name"; "datatype"] [[CStr "ID"; CStr "int"]]) ∅
  = Raise KeyError.
Proof.
  apply (X25_missing_label
           (mk_frame ["name"; "datatype"] [[CStr "ID"; CStr "int"]])
           "length" [CStr "ID"; CStr "int"] [] ∅).
  - unfold config_labels. rewrite list_elem_of_In. simpl. tauto.
  - simpl. rewrite list_elem_of_In. simpl. intuition discriminate.
  - reflexivity.
  - repeat constructor; discriminate.
Defined.

(** *** Cells that are not available *)

Lemma notna_nan_to_none (v : cell) :
  notna_or_None (nan_to_none v) = notna_or_None v.
Proof. by destruct v. Qed.

Lemma row_dict_from_nan_to_none (labels : list string) (r : list cell)
    (acc : gmap string cell) :
  TableSchema.row_dict_from acc (zip labels (map nan_to_none r))
  = TableSchema.row_dict_from acc (zip labels r).
Proof.
  revert r acc. induction labels as [|k labels IH]; intros [|v r] acc;
    try done.
  simpl. rewrite notna_nan_to_none.
  destruct (notna_or_None v) as [v'|e]; simpl; [apply IH | done].
Qed.

Lemma column_of_row_nan_to_none (labels : list string) (r : list cell) :
  TableSchema.column_of_row (zip labels (map nan_to_none r))
  = TableSchema.column_of_row (zip labels r).
Proof.
  unfold TableSchema.column_of_row, TableSchema.row_dict.
  by rewrite row_dict_from_nan_to_none.
Qed.

Lemma from_dataframe_loop_nan_to_none (labels : list string) (columns : loc)
    (rows : list (list cell)) (acc : result (gmap loc object)) :
  foldl (from_dataframe_step labels columns) acc (map (map nan_to_none) rows)
  = foldl (from_dataframe_step labels columns) acc rows.
Proof.
  revert acc. induction rows as [|r rows IH]; intros acc; [done|].
  cbn [map foldl]. rewrite IH. f_equal.
  unfold from_dataframe_step. by rewrite column_of_row_nan_to_none.
Qed.

(** X26: a NaN cell and a [None] cell are the same to the factory:
    replacing every NaN cell of a frame by [None] changes neither the
    schema that [from_dataframe] builds nor the error it raises. *)
Theorem X26_nan_is_none (df : frame) (σ : gmap loc object) :
  TableSchema.from_dataframe
    (mk_frame (labels df) (map (map nan_to_none) (rows df))) σ
  = TableSchema.from_dataframe df σ.
Proof.
  rewrite !from_dataframe_unfold. cbn [labels rows].
  by rewrite from_dataframe_loop_nan_to_none.
Qed.

(** *** Rows over the seven labels *)

Lemma row_dict_config (name datatype length domain max min completeness
    name' datatype' length' domain' max' min' completeness' : cell) :
  notna_or_None name = Ok name' →
  notna_or_None datatype = Ok datatype' →
  notna_or_None length = Ok length' →
  notna_or_None domain = Ok domain' →
  notna_or_None max = Ok max' →
  notna_or_None min = Ok min' →
  notna_or_None completeness = Ok completeness' →
  TableSchema.row_dict
    (zip config_labels
       [name; datatype; length; domain; max; min; completeness])
  = Ok (<["completeness" := completeness']>
          (<["min" := min']>
             (<["max" := max']>
                (<["domain" := domain']>
                   (<["length" := length']>
                      (<["datatype" := datatype']>
                         (<["name" := name']> ∅))))))).
Proof.
  intros H1 H2 H3 H4 H5 H6 H7.
  unfold TableSchema.row_dict, config_labels.
  cbn [zip_with TableSchema.row_dict_from].
  rewrite H1. cbn [mbind result_bind TableSchema.row_dict_from].
  rewrite H2. cbn [mbind result_bind TableSchema.row_dict_from].
  rewrite H3. cbn [mbind result_bind TableSchema.row_dict_from].
  rewrite H4. cbn [mbind result_bind TableSchema.row_dict_from].
  rewrite H5. cbn [mbind result_bind TableSchema.row_dict_from].
  rewrite H6. cbn [mbind result_bind TableSchema.row_dict_from].
  rewrite H7. reflexivity.
Qed.

(** *** Rows that cannot be normalised *)

Lemma row_dict_from_raises (items : list (string * cell))
    (acc : gmap string cell) :
  Exists (fun kv => ∃ x y l, kv.2 = CList (x :: y :: l)) items →
  TableSchema.row_dict_from acc items = Raise ValueError.
Proof.
  intros Hex. revert acc.
  induction Hex as [[k v] items (x & y & l & Hv)|[k v] items _ IH];
    intros acc; simpl in *.
  - by rewrite Hv.
  - destruct (notna_or_None v) as [v'|e] eqn:Hnotna; simpl; [apply IH|].
    destruct v as [| | | |[|? [|??]]]; simpl in Hnotna; congruence.
Qed.

Lemma zip_snd_Exists {A B} (P : B → Prop) (l : list A) (k : list B) :
  (length k ≤ length l)%nat →
  Exists P k → Exists (fun ab => P ab.2) (zip l k).
Proof.
  intros Hlen Hex. revert l Hlen.
  induction Hex as [b k Hb|b k _ IH]; intros [|a l] Hlen; simpl in *;
    try lia.
  - by left.
  - right. apply IH. lia.
Qed.

Lemma column_of_row_list_cell (labels : list string) (r : list cell) :
  (length r ≤ length labels)%nat →
  Exists (fun c => ∃ x y l, c = CList (x :: y :: l)) r →
  TableSchema.column_of_row (zip labels r) = Raise ValueError.
Proof.
  intros Hlen Hex. unfold TableSchema.column_of_row, TableSchema.row_dict.
  rewrite row_dict_from_raises; [done|].
  by apply (zip_snd_Exists (fun c => ∃ x y l, c = CList (x :: y :: l))).
Qed.

Lemma normalize_completeness_notna (c : cell) (n : num) :
  ColumnSchema.normalize_completeness c = Ok n →
  ∃ c', notna_or_None c = Ok c'
        ∧ ColumnSchema.normalize_completeness c' = Ok n.
Proof. destruct c; try discriminate; intros H; by eexists. Qed.

Lemma column_of_row_config (name datatype length domain max min completeness
    name' datatype' length' domain' max' min' completeness' : cell) :
  notna_or_None name = Ok name' →
  notna_or_None datatype = Ok datatype' →
  notna_or_None length = Ok length' →
  notna_or_None domain = Ok domain' →
  notna_or_None max = Ok max' →
  notna_or_None min = Ok min' →
  notna_or_None completeness = Ok completeness' →
  TableSchema.column_of_row
    (zip config_labels
       [name; datatype; length; domain; max; min; completeness])
  = (name ← TableSchema.as_name name';
     ColumnSchema.init name (ColumnSchema.DtValue datatype')
       (Some completeness') None
       (<["length" := length']>
          (<["domain" := domain']>
             (<["max_value" := max']>
                (<["min_value" := min']> ∅))))).
Proof.
  intros H1 H2 H3 H4 H5 H6 H7. unfold TableSchema.column_of_row.
  rewrite (row_dict_config _ _ _ _ _ _ _ _ _ _ _ _ _ _ H1 H2 H3 H4 H5 H6 H7).
  reflexivity.
Qed.

(** X27: a row whose datatype cell is not available becomes the default
    text column of length 10 under the name of the row, with the
    completeness of the row (1.0 when that cell is not available): the
    values of its length, domain, max and min cells are not used, so that
    even a length that the Text constructor would reject raises no error,
    as long as each of these cells is a scalar, not available, or a list of
    one label.  A cell that is a list of two labels or more makes the row
    raise a value error in the normalisation instead. *)
Theorem X27_row_without_datatype (name : string)
    (datatype length domain max min completeness : cell) :
  datatype = CNone ∨ datatype = CNaN →
  (∀ n,
     Forall (fun c => ∃ c', notna_or_None c = Ok c')
       [length; domain; max; min] →
     ColumnSchema.normalize_completeness completeness = Ok n →
     TableSchema.column_of_row
       (zip config_labels
          [CStr name; datatype; length; domain; max; min; completeness])
     = Ok (ColumnSchema.mk name (Datatype.StringType (Int 10)) n None))
  ∧ (Exists (fun c => ∃ x y l, c = CList (x :: y :: l))
       [length; domain; max; min; completeness] →
     TableSchema.column_of_row
       (zip config_labels
          [CStr name; datatype; length; domain; max; min; completeness])
     = Raise ValueError).
Proof.
  intros Hd. split.
  - intros n Hcells Hcompleteness.
    apply Forall_cons in Hcells as [[length' Hlength] Hcells].
    apply Forall_cons in Hcells as [[domain' Hdomain] Hcells].
    apply Forall_cons in Hcells as [[max' Hmax] Hcells].
    apply Forall_cons in Hcells as [[min' Hmin] _].
    apply normalize_completeness_notna in Hcompleteness
      as (completeness' & Hnotna & Hn).
    assert (notna_or_None datatype = Ok CNone) as Hdatatype
      by (by destruct Hd as [-> | ->]).
    rewrite (column_of_row_config (CStr name) datatype length domain max min
               completeness (CStr name) CNone length' domain' max' min'
               completeness'
               eq_refl Hdatatype Hlength Hdomain Hmax Hmin Hnotna).
    cbn [TableSchema.as_name mbind result_bind]. unfold ColumnSchema.init.
    change (Datatype.StringType_init None)
      with (Ok (Datatype.StringType (Int 10))).
    cbn [mbind result_bind default from_option id]. by rewrite Hn.
  - intros Hex. apply column_of_row_list_cell; [simpl; lia|].
    by do 2 right.
Qed.

Lemma X27_row_without_datatype_witness :
  TableSchema.column_of_row
    (zip config_labels
       [CStr "Note"; CNaN; CNum (Int (-5)); CList ["x"]; CNone; CStr "low";
        CNaN])
  = Ok (ColumnSchema.mk "Note" (Datatype.StringType (Int 10)) (Float 1) None)
  ∧ TableSchema.column_of_row
      (zip config_labels
         [CStr "Note"; CNaN; CNum (Int (-5)); CList ["x"; "y"]; CNone;
          CStr "low"; CNaN])
    = Raise ValueError.
Proof.
  split.
  - apply (proj1 (X27_row_without_datatype "Note" CNaN (CNum (Int (-5)))
                    (CList ["x"]) CNone (CStr "low") CNaN (or_intror eq_refl)));
      [|reflexivity].
    repeat constructor; by eexists.
  - apply (proj2 (X27_row_without_datatype "Note" CNaN (CNum (Int (-5)))
                    (CList ["x"; "y"]) CNone (CStr "low") CNaN
                    (or_intror eq_refl))).
    right. left. by eexists _, _, _.
Defined.

Lemma init_integer (name tag : string) (a b : Z) (completeness : cell)
    (n : num) (kwargs : gmap string cell) :
  lower tag = "int" ∨ lower tag = "integer" →
  kwargs !! "self" = None →
  kwargs !! "min_value" = Some (CNum (Int a)) →
  kwargs !! "max_value" = Some (CNum (Int b)) →
  a < b →
  ColumnSchema.normalize_completeness completeness = Ok n →
  ColumnSchema.init name (ColumnSchema.DtValue (CStr tag)) (Some completeness)
    None kwargs
  = Ok (ColumnSchema.mk name (Datatype.IntegerType a b) n None).
Proof.
  intros Htag Hself Hmin Hmax Hab Hn. unfold ColumnSchema.init.
  assert (Datatype.get_class (lower tag) = Ok Datatype.IntegerTypeC) as ->
    by (by destruct Htag as [-> | ->]).
  cbn [mbind result_bind]. unfold Datatype.construct.
  rewrite !map_lookup_filter, Hself, Hmin, Hmax. simpl.
  unfold Datatype.IntegerType_init. simpl.
  rewrite num_ge_Int. destruct (Z.leb_spec b a); [lia|]. simpl.
  by rewrite Hn.
Qed.

(** X28: a configuration row with an integer tag, in any case, and int
    bounds [min = a < max = b] gives an Integer column with these bounds
    and the completeness of the row (1.0 when that cell is not available),
    whatever its length and domain cells hold among scalars, cells that
    are not available and lists of one label; for every state of the random
    source the column generates either the null marker or an integer
    between [a] and [b], and never raises.  A length or domain cell that
    is a list of two labels or more makes the row raise a value error
    instead. *)
Theorem X28_integer_row (name tag : string) (a b : Z)
    (length domain completeness : cell) (g : rng) :
  lower tag = "int" ∨ lower tag = "integer" →
  a < b →
  (∀ n,
     Forall (fun c => ∃ c', notna_or_None c = Ok c') [length; domain] →
     ColumnSchema.normalize_completeness completeness = Ok n →
     ∃ col,
       TableSchema.column_of_row
         (zip config_labels
            [CStr name; CStr tag; length; domain; CNum (Int b); CNum (Int a);
             completeness])
       = Ok col
       ∧ col = ColumnSchema.mk name (Datatype.IntegerType a b) n None
       ∧ ∃ v g', ColumnSchema.generate col g = Ok (v, g')
                 ∧ (v = VNone ∨ ∃ z, v = VInt z ∧ a ≤ z ≤ b))
  ∧ (Exists (fun c => ∃ x y l, c = CList (x :: y :: l)) [length; domain] →
     TableSchema.column_of_row
       (zip config_labels
          [CStr name; CStr tag; length; domain; CNum (Int b); CNum (Int a);
           completeness])
     = Raise ValueError).
Proof.
  intros Htag Hab. split.
  - intros n Hcells Hcompleteness.
    apply Forall_cons in Hcells as [[length' Hlength] Hcells].
    apply Forall_cons in Hcells as [[domain' Hdomain] _].
    apply normalize_completeness_notna in Hcompleteness
      as (completeness' & Hnotna & Hn).
    eexists. split_and!; [|reflexivity|].
    + unfold TableSchema.column_of_row.
      rewrite (row_dict_config (CStr name) (CStr tag) length domain
                 (CNum (Int b)) (CNum (Int a)) completeness
                 (CStr name) (CStr tag) length' domain'
                 (CNum (Int b)) (CNum (Int a)) completeness'
                 eq_refl eq_refl Hlength Hdomain eq_refl eq_refl Hnotna).
      cbn -[ColumnSchema.init]. by apply init_integer.
    + destruct (null_path_dec
                  (ColumnSchema.mk name (Datatype.IntegerType a b) n None) g)
        as [Hnull|Hvalue].
      * rewrite generate_null_path by done.
        eexists _, _. split; [done|by left].
      * rewrite generate_value_path by done. unfold value_rule. simpl.
        destruct (random_randint_range a b (after_sample g)) as (z & -> & Hz);
          [lia|].
        eexists _, _. split; [done|]. right. by exists z.
  - intros Hex. apply column_of_row_list_cell; [simpl; lia|].
    do 2 right. apply Exists_cons in Hex as [H|Hex]; [by left|right].
    apply Exists_cons in Hex as [H|Hex]; [by left|].
    by apply Exists_nil in Hex.
Qed.

Lemma X28_integer_row_witness :
  ∃ col,
    TableSchema.column_of_row
      (zip config_labels
         [CStr "Age"; CStr "Integer"; CNaN; CNaN; CNum (Int 65);
          CNum (Int 18); CNum (Float (1 # 2))])
    = Ok col
    ∧ col = ColumnSchema.mk "Age" (Datatype.IntegerType 18 65)
              (Float (1 # 2)) None
    ∧ ∃ v g', ColumnSchema.generate col (constant_rng 9) = Ok (v, g')
              ∧ (v = VNone ∨ ∃ z, v = VInt z ∧ 18 ≤ z ≤ 65).
Proof.
  apply (proj1 (X28_integer_row "Age" "Integer" 18 65 CNaN CNaN
                  (CNum (Float (1 # 2))) (constant_rng 9)
                  (or_intror eq_refl) ltac:(lia)));
    [|reflexivity].
  repeat constructor; by eexists.
Defined.

(** ** Errors during generation *)

Lemma generate_row_raises (before after : list ColumnSchema.t)
    (c : ColumnSchema.t) (e : exn) (g : rng) :
  Forall always_generates before →
  (∀ g0, ColumnSchema.generate c g0 = Raise e) →
  TableSchema.generate_row (before ++ c :: after) g = Raise e.
Proof.
  intros Hbefore Hc. revert g.
  induction Hbefore as [|c0 before Hc0 _ IH]; intros g; simpl.
  - by rewrite Hc.
  - destruct (Hc0 g) as (v & g1 & ->). simpl. by rewrite IH.
Qed.

(** X29: generation has no partial result: when a column of the schema
    raises an error on every call and the columns before it always
    generate, [generate] raises that error for every positive [num_rows]
    and every state of the random source. *)
Theorem X29_generate_propagates (self : loc)
    (before after : list ColumnSchema.t) (c : ColumnSchema.t) (e : exn)
    (num_rows : Z) (σ : gmap loc object) (g : rng) :
  contents self σ = Ok (Some (before ++ c :: after)) →
  Forall always_generates before →
  (∀ g0, ColumnSchema.generate c g0 = Raise e) →
  0 < num_rows →
  TableSchema.generate self num_rows σ g = Raise e.
Proof.
  intros (l & Hself & Hl)%contents_present Hbefore Hc Hn.
  rewrite (generate_present self l _ num_rows σ g Hself Hl).
  destruct (Z.to_nat num_rows) as [|n] eqn:En; [lia|].
  simpl. by rewrite (generate_row_raises before after c e).
Qed.

Lemma X29_generate_propagates_witness :
  TableSchema.generate 2%positive 3 float_text_store (constant_rng 0)
  = Raise TypeError.
Proof.
  apply (X29_generate_propagates 2%positive [] [] float_text_column TypeError
           3 float_text_store (constant_rng 0)).
  - reflexivity.
  - constructor.
  - intros g0. rewrite generate_value_path; [reflexivity|].
    intros [Hlt _]. by apply Qlt_irrefl in Hlt.
  - lia.
Defined.
